(** * kroger_mcp.tools.shared: session cache and preference store

    A shallow embedding of [src/kroger_mcp/tools/shared.py].

    Python code that reads the environment, talks to the [kroger_api]
    collaborator library or touches the filesystem is written in a small
    state-and-exception monad; [try: ... except ...] is [try_except].
    The collaborator library, the JSON codec of the Python standard library
    and the platform constants are interfaces (type classes): every theorem
    holds for all their implementations. *)

From stdpp Require Import base option list gmap strings.
From Stdlib Require Import Ascii String ZArith DecimalString.

Set Warnings "-register-all".

(** ** Python strings *)

(** [s.startswith(prefix)] *)
Fixpoint str_startswith (s prefix : string) {struct prefix} : bool :=
  match prefix with
  | EmptyString => true
  | String a prefix' =>
      match s with
      | EmptyString => false
      | String b s' => Ascii.eqb a b && str_startswith s' prefix'
      end
  end.

(** [needle in hay] for Python [str] operands. *)
Fixpoint str_contains (needle hay : string) : bool :=
  str_startswith hay needle ||
  match hay with
  | EmptyString => false
  | String _ rest => str_contains needle rest
  end.

(** [sep.join(parts)] *)
Definition str_join (sep : string) (parts : list string) : string :=
  String.concat sep parts.

(** The relation [str_contains] decides. *)
Definition Substring (needle hay : string) : Prop :=
  ∃ before after, hay = before +:+ needle +:+ after.

(** [str.isspace] for one character; a character is a code point below 256. *)
Definition py_isspace (c : ascii) : bool :=
  let n := nat_of_ascii c in
  ((9 <=? n) && (n <=? 13)) || ((28 <=? n) && (n <=? 32))
  || (n =? 133) || (n =? 160).

Fixpoint py_lstrip (s : string) : string :=
  match s with
  | EmptyString => EmptyString
  | String c rest => if py_isspace c then py_lstrip rest else s
  end.

Fixpoint py_rstrip (s : string) : string :=
  match s with
  | EmptyString => EmptyString
  | String c rest =>
      match py_rstrip rest with
      | EmptyString => if py_isspace c then EmptyString else String c EmptyString
      | kept => String c kept
      end
  end.

(** [s.strip()] *)
Definition py_strip (s : string) : string := py_rstrip (py_lstrip s).

(** Truth value of a [str]: non-empty. *)
Definition str_truthy (s : string) : bool :=
  match s with EmptyString => false | String _ _ => true end.

(** ** JSON values, as [json.loads] builds them

    A JSON object becomes a Python [dict]: insertion-ordered, so an
    association list.  Numbers are Python [int]s; floats are not modelled. *)
Inductive json : Type :=
  | JNull
  | JBool (b : bool)
  | JNum (n : Z)
  | JStr (s : string)
  | JArr (items : list json)
  | JObj (members : list (string * json)).

Abbreviation dict := (list (string * json)).

(** [d[key]] when present. *)
Fixpoint dict_lookup (key : string) (d : dict) : option json :=
  match d with
  | [] => None
  | (k, v) :: rest => if String.eqb k key then Some v else dict_lookup key rest
  end.

(** [d.get(key)]: [None] (JSON null) when the key is absent. *)
Definition dict_get (key : string) (d : dict) : json :=
  default JNull (dict_lookup key d).

(** [d[key] = v]: replaces in place, or appends a new last member. *)
Fixpoint dict_set (key : string) (v : json) (d : dict) : dict :=
  match d with
  | [] => [(key, v)]
  | (k, old) :: rest =>
      if String.eqb k key then (k, v) :: rest else (k, old) :: dict_set key v rest
  end.

(** [type(v).__name__] *)
Definition py_type_name (v : json) : string :=
  match v with
  | JNull => "NoneType"
  | JBool _ => "bool"
  | JNum _ => "int"
  | JStr _ => "str"
  | JArr _ => "list"
  | JObj _ => "dict"
  end.

(** ** Exceptions *)

(** The exception classes that occur; all derive from [Exception]. *)
Inductive exn_class : Type :=
  | Exception_
  | ValueError
  | JSONDecodeError      (* subclass of ValueError *)
  | UnicodeDecodeError   (* subclass of ValueError *)
  | OSError              (* IOError is the same class *)
  | FileNotFoundError    (* subclass of OSError *)
  | FileExistsError      (* subclass of OSError *)
  | PermissionError      (* subclass of OSError *)
  | UnboundLocalError
  | AttributeError
  | TypeError
  | RuntimeError.

(** An exception object: its class, [str(e)], and [e.__context__], the
    exception that was being handled when [e] was raised. *)
Inductive exn : Type :=
  | mk_exn (cls : exn_class) (text : string) (context : option exn).

Definition exn_cls (e : exn) : exn_class := let 'mk_exn c _ _ := e in c.
Definition py_str_exn (e : exn) : string := let 'mk_exn _ s _ := e in s.
Definition exn_context (e : exn) : option exn := let 'mk_exn _ _ c := e in c.

(** [isinstance(e, OSError)] *)
Definition is_OSError (c : exn_class) : bool :=
  match c with
  | OSError | FileNotFoundError | FileExistsError | PermissionError => true
  | _ => false
  end.

(** [isinstance(e, json.JSONDecodeError)] *)
Definition is_JSONDecodeError (c : exn_class) : bool :=
  match c with JSONDecodeError => true | _ => false end.

(** ** The monad: state passing with exceptions *)

Inductive outcome (A : Type) : Type :=
  | Returns (a : A)
  | Raises (e : exn).
Arguments Returns {A} a.
Arguments Raises {A} e.

Definition M (S A : Type) : Type := S → outcome A * S.

#[global] Instance M_ret {S} : MRet (M S) := λ A a s, (Returns a, s).
#[global] Instance M_bind {S} : MBind (M S) := λ A B f m s,
  match m s with
  | (Returns a, s') => f a s'
  | (Raises e, s') => (Raises e, s')
  end.

Definition raise {S A} (e : exn) : M S A := λ s, (Raises e, s).
Definition gets {S A} (f : S → A) : M S A := λ s, (Returns (f s), s).
Definition modify {S} (f : S → S) : M S unit := λ s, (Returns tt, f s).

(** A computation that touches no state: it returns or raises. *)
Definition lift_outcome {S A} (r : outcome A) : M S A := λ s, (r, s).

(** [try: body  except Exception as e: handler e] *)
Definition try_except {S A} (body : M S A) (handler : exn → M S A) : M S A :=
  λ s, match body s with
       | (Raises e, s') => handler e s'
       | r => r
       end.

(** [raise cls(text)] inside an [except] block that handles [cause]. *)
Definition raise_from_handler {S A} (cls : exn_class) (text : string) (cause : exn) : M S A :=
  raise (mk_exn cls text (Some cause)).

(** ** Session cache *)
Module Session.

(** A client handle is a Python object; the number is its identity. *)
Definition handle := nat.

(** The [kroger_api] collaborator library, over its own state [L] (the token
    file, the remote service, the objects it has built). *)
Class Collaborator (L : Type) := {
  (** [load_token(path)]: the token record, or [None] *)
  load_token : string → L → outcome (option dict) * L;
  (** [KrogerAPI()] *)
  KrogerAPI : L → outcome handle * L;
  (** [h.client.token_info = token_info] *)
  set_token_info : handle → dict → L → L;
  (** [h.client.token_file = path] *)
  set_token_file : handle → string → L → L;
  (** [h.test_current_token()] *)
  test_current_token : handle → L → outcome bool * L;
  (** [h.authorization.refresh_token(credential)] *)
  refresh_token : handle → json → L → outcome unit * L;
  (** [h.authorization.client_credentials()] *)
  client_credentials : handle → L → outcome unit * L;
}.

(** What the module asks of its surroundings, in order. *)
Inductive call : Type :=
  | CallGetenv (var : string)
  | CallLoadToken (path : string)
  | CallKrogerAPI
  | CallTestCurrentToken (h : handle)
  | CallRefreshToken (h : handle) (credential : json)
  | CallClientCredentials (h : handle).

Section WithCollaborator.
Context {L : Type} `{!Collaborator L}.

Record world : Type := World {
  environ : gmap string string;
  lib : L;
  _client_credentials_client : option handle;
  _authenticated_client : option handle;
  calls : list call;
}.

Definition with_lib (l : L) (w : world) : world :=
  World (environ w) l (_client_credentials_client w) (_authenticated_client w) (calls w).
Definition with_client_credentials_client (c : option handle) (w : world) : world :=
  World (environ w) (lib w) c (_authenticated_client w) (calls w).
Definition with_authenticated_client (c : option handle) (w : world) : world :=
  World (environ w) (lib w) (_client_credentials_client w) c (calls w).
Definition record_call (c : call) (w : world) : world :=
  World (environ w) (lib w) (_client_credentials_client w) (_authenticated_client w)
        (calls w ++ [c]).

(** Calling into the collaborator: the call is recorded, then it runs on the
    library's state. *)
Definition collaborate {A} (c : call) (op : L → outcome A * L) : M world A :=
  λ w, let w1 := record_call c w in
       let '(r, l) := op (lib w1) in (r, with_lib l w1).

(** [os.getenv(var)] *)
Definition os_getenv (var : string) : M world (option string) :=
  λ w, (Returns (environ w !! var), record_call (CallGetenv var) w).

(** Truth value of what [os.getenv] returns. *)
Definition env_truthy (v : option string) : bool :=
  match v with Some s => str_truthy s | None => false end.

Definition TOKEN_FILE : string := ".kroger_token_user.json".

(** The loop of [load_and_validate_env]: collects the missing names. *)
Fixpoint collect_missing (required_vars missing_vars : list string) : M world (list string) :=
  match required_vars with
  | [] => mret missing_vars
  | var :: rest =>
      v ← os_getenv var;
      if negb (env_truthy v)
      then collect_missing rest (missing_vars ++ [var])
      else collect_missing rest missing_vars
  end.

Definition missing_message (missing_vars : list string) : string :=
  "Missing required environment variables: " +:+ str_join ", " missing_vars.

Definition load_and_validate_env (required_vars : list string) : M world unit :=
  missing_vars ← collect_missing required_vars [];
  match missing_vars with
  | [] => mret tt
  | _ => raise (mk_exn ValueError (missing_message missing_vars) None)
  end.

Definition get_client_credentials_client : M world handle :=
  cached ← gets _client_credentials_client;
  match cached with
  | Some h => mret h
  | None =>
      try_except
        (load_and_validate_env ["KROGER_CLIENT_ID"; "KROGER_CLIENT_SECRET"];;
         h ← collaborate CallKrogerAPI KrogerAPI;
         modify (with_client_credentials_client (Some h));;
         collaborate (CallClientCredentials h) (client_credentials h);;
         mret h)
        (λ e, raise_from_handler Exception_
                ("Failed to initialize client credentials client: " +:+ py_str_exn e) e)
  end.

Definition authentication_required_message : string :=
  "Authentication required. Please use the start_authentication tool to begin the OAuth flow, "
  +:+ "then complete it with the complete_authentication tool.".

(** The exception raised when no valid token is available. *)
Definition authentication_required : exn :=
  mk_exn Exception_ authentication_required_message None.

(** The refresh attempt, lines 81-89: [Some h] stands for [return h], [None]
    for falling through to the end of the [if token_info:] block. *)
Definition try_refresh (h : handle) (token_info : dict) : M world (option handle) :=
  match dict_lookup "refresh_token" token_info with
  | Some credential =>
      try_except
        (collaborate (CallRefreshToken h credential) (refresh_token h credential);;
         valid ← collaborate (CallTestCurrentToken h) (test_current_token h);
         if (valid : bool) then mret (Some h) else mret None)
        (λ _, modify (with_authenticated_client None);; mret None)
  | None => mret None
  end.

(** The body of the [try] of [get_authenticated_client], lines 64-95.
    [if token_info:] holds for a token record that is a non-empty dict. *)
Definition recover_user_client : M world handle :=
  load_and_validate_env ["KROGER_CLIENT_ID"; "KROGER_CLIENT_SECRET"; "KROGER_REDIRECT_URI"];;
  let token_file := ".kroger_token_user.json" in
  token_info ← collaborate (CallLoadToken token_file) (load_token token_file);
  returned ←
    match token_info with
    | Some ((_ :: _) as info) =>
        h ← collaborate CallKrogerAPI KrogerAPI;
        modify (with_authenticated_client (Some h));;
        modify (λ w, with_lib (set_token_info h info (lib w)) w);;
        modify (λ w, with_lib (set_token_file h token_file (lib w)) w);;
        valid ← collaborate (CallTestCurrentToken h) (test_current_token h);
        if (valid : bool) then mret (Some h) else try_refresh h info
    | _ => mret None
    end;
  match returned with
  | Some h => mret h
  | None => raise authentication_required
  end.

(** The [except Exception as e:] clause, lines 96-102. *)
Definition on_recovery_failure {A} (e : exn) : M world A :=
  if str_contains "Authentication required" (py_str_exn e)
  then raise e
  else raise_from_handler Exception_ ("Authentication failed: " +:+ py_str_exn e) e.

(** The test of line 56, with Python's short-circuit [and]. *)
Definition cached_client_valid : M world (option handle) :=
  cached ← gets _authenticated_client;
  match cached with
  | Some h =>
      valid ← collaborate (CallTestCurrentToken h) (test_current_token h);
      mret (if (valid : bool) then Some h else None)
  | None => mret None
  end.

Definition get_authenticated_client : M world handle :=
  usable ← cached_client_valid;
  match usable with
  | Some h => mret h
  | None =>
      modify (with_authenticated_client None);;
      try_except recover_user_client on_recovery_failure
  end.

(** The configuration of the user-OAuth mode, line 64. *)
Definition user_oauth_vars : list string :=
  ["KROGER_CLIENT_ID"; "KROGER_CLIENT_SECRET"; "KROGER_REDIRECT_URI"].

(** The world once [os.getenv] has been asked for each of [required_vars]. *)
Definition asked (required_vars : list string) (w : world) : world :=
  World (environ w) (lib w) (_client_credentials_client w) (_authenticated_client w)
        (calls w ++ map CallGetenv required_vars).

(** The names [load_and_validate_env] finds missing, in the order asked. *)
Definition missing_from (env : gmap string string) (required_vars : list string) : list string :=
  filter (λ var, env_truthy (env !! var) = false) required_vars.

(** What [on_recovery_failure] raises for a failure it wraps. *)
Definition authentication_failed (cause : exn) : exn :=
  mk_exn Exception_ ("Authentication failed: " +:+ py_str_exn cause) (Some cause).

(** The policy "told apart by kind": of the failures of the recovery, the
    authentication-required signal alone passes unchanged, and every other
    one is wrapped. *)
Definition failures_told_apart_by_kind (w : world) : Prop :=
  ∀ w0 e w1,
    cached_client_valid w = (Returns None, w0) →
    recover_user_client (with_authenticated_client None w0) = (Raises e, w1) →
    (e = authentication_required → fst (get_authenticated_client w) = Raises e)
    ∧ (e ≠ authentication_required →
       fst (get_authenticated_client w) = Raises (authentication_failed e)).

Definition invalidate_authenticated_client : M world unit :=
  modify (with_authenticated_client None).

Definition invalidate_client_credentials_client : M world unit :=
  modify (with_client_credentials_client None).

(** [os.getenv(var, default)] *)
Definition os_getenv_or (var default : string) : M world string :=
  v ← os_getenv var;
  mret (from_option id default v).

Definition get_zip_code (default : string) : M world string :=
  os_getenv_or "KROGER_USER_ZIP_CODE" default.

Definition get_default_zip_code : M world string := get_zip_code "10001".

(** The configuration of the app-credentials mode, line 42. *)
Definition app_vars : list string := ["KROGER_CLIENT_ID"; "KROGER_CLIENT_SECRET"].

(** What [get_client_credentials_client] raises for a failure it wraps. *)
Definition initialization_failed (cause : exn) : exn :=
  mk_exn Exception_
    ("Failed to initialize client credentials client: " +:+ py_str_exn cause) (Some cause).

Definition is_refresh (c : call) : bool :=
  match c with CallRefreshToken _ _ => true | _ => false end.
Definition is_validity_check (c : call) : bool :=
  match c with CallTestCurrentToken _ => true | _ => false end.
Definition is_token_load (c : call) : bool :=
  match c with CallLoadToken _ => true | _ => false end.
Definition is_construction (c : call) : bool :=
  match c with CallKrogerAPI => true | _ => false end.

(** How many of the calls satisfy [p]. *)
Definition count_calls (p : call → bool) (cs : list call) : nat :=
  List.length (List.filter p cs).

End WithCollaborator.
Arguments world : clear implicits.
End Session.

(** ** Preference store *)
Module Preferences.

(** What the module uses of the Python runtime and of the platform. *)
Class Runtime := {
  (** [os.name] *)
  os_name : string;
  (** [os.path.expanduser] of the preferences path, computed at import *)
  PREFERENCES_FILE : string;
  (** [os.path.dirname] *)
  os_path_dirname : string → string;
  (** [json.dumps(v, indent=2, ensure_ascii=False)], the text that
      [json.dump] writes *)
  json_dumps : json → string;
  (** [json.loads]; malformed text raises [JSONDecodeError] *)
  json_loads : string → outcome json;
  (** [repr] of a list or dict, used when one is formatted *)
  py_repr : json → string;
}.

(** What the module does to its surroundings, in order: lines printed and
    filesystem operations attempted. *)
Inductive event : Type :=
  | Print (line : string)
  | Makedirs (path : string)
  | OpenRead (path : string)
  | Read (path : string)
  | OpenWrite (path : string)
  | Write (path content : string)
  | Flush (path : string)
  | Fsync (path : string)
  | Close (path : string)
  | Remove (path : string)
  | Rename (src dst : string).

(** The filesystem.  [faults] is the script of the operating system's
    refusals: each filesystem operation takes the next entry, and fails with
    that exception when there is one. An exhausted script refuses nothing. *)
Record world : Type := World {
  dirs : gset string;
  files : gmap string string;
  faults : list (option exn);
  journal : list event;
}.

Definition with_dirs (d : gset string) (w : world) : world :=
  World d (files w) (faults w) (journal w).
Definition with_files (f : gmap string string) (w : world) : world :=
  World (dirs w) f (faults w) (journal w).
Definition with_faults (f : list (option exn)) (w : world) : world :=
  World (dirs w) (files w) f (journal w).
Definition record_event (ev : event) (w : world) : world :=
  World (dirs w) (files w) (faults w) (journal w ++ [ev]).

Definition print (line : string) : M world unit := modify (record_event (Print line)).

Definition next_fault : M world (option exn) :=
  λ w, (Returns (default None (head (faults w))), with_faults (tail (faults w)) w).

(** A filesystem operation: recorded, then refused or carried out. *)
Definition attempt {A} (ev : event) (op : M world A) : M world A :=
  modify (record_event ev);;
  fault ← next_fault;
  match fault with
  | Some e => raise e
  | None => op
  end.

Definition no_such_file (path : string) : exn :=
  mk_exn FileNotFoundError ("[Errno 2] No such file or directory: '" +:+ path +:+ "'") None.

(** [str(v)], as an f-string formats a value. *)
Definition py_str `{!Runtime} (v : json) : string :=
  match v with
  | JNull => "None"
  | JBool true => "True"
  | JBool false => "False"
  | JNum n => NilZero.string_of_int (Z.to_int n)
  | JStr s => s
  | JArr _ | JObj _ => py_repr v
  end.

(** [v.get(key)] *)
Definition py_get {S} (v : json) (key : string) : M S json :=
  match v with
  | JObj d => mret (dict_get key d)
  | _ => raise (mk_exn AttributeError
                  ("'" +:+ py_type_name v +:+ "' object has no attribute 'get'") None)
  end.

(** [v[key] = x], with [key] a [str] *)
Definition py_setitem {S} (v : json) (key : string) (x : json) : M S json :=
  match v with
  | JObj d => mret (JObj (dict_set key x d))
  | JArr _ => raise (mk_exn TypeError "list indices must be integers or slices, not str" None)
  | _ => raise (mk_exn TypeError
                  ("'" +:+ py_type_name v +:+ "' object does not support item assignment") None)
  end.

(** [v != s], with [s] a [str] *)
Definition py_ne_str (v : json) (s : string) : bool :=
  match v with
  | JStr t => negb (String.eqb t s)
  | _ => true
  end.

Section WithRuntime.
Context `{!Runtime}.

(** [os.makedirs(path, exist_ok=True)] *)
Definition os_makedirs (path : string) : M world unit :=
  attempt (Makedirs path) (modify (λ w, with_dirs ({[path]} ∪ dirs w) w)).

(** [os.path.exists(path)], asked of file paths *)
Definition os_path_exists (path : string) : M world bool :=
  gets (λ w, bool_decide (is_Some (files w !! path))).

(** [open(path, 'r', encoding='utf-8')]; the file object is modelled by the
    text it will yield. *)
Definition open_read (path : string) : M world string :=
  attempt (OpenRead path)
    (content ← gets (λ w, files w !! path);
     match content with
     | Some text => mret text
     | None => raise (no_such_file path)
     end).

(** [f.read()] *)
Definition f_read (path text : string) : M world string :=
  attempt (Read path) (mret text).

(** [open(path, 'w', encoding='utf-8')]: creates or truncates. *)
Definition open_write (path : string) : M world unit :=
  attempt (OpenWrite path) (modify (λ w, with_files (<[path := EmptyString]> (files w)) w)).

(** [json.dump(v, f, indent=2, ensure_ascii=False)] *)
Definition json_dump (v : json) (path : string) : M world unit :=
  let text := json_dumps v in
  attempt (Write path text) (modify (λ w, with_files (<[path := text]> (files w)) w)).

Definition f_flush (path : string) : M world unit := attempt (Flush path) (mret tt).
Definition os_fsync (path : string) : M world unit := attempt (Fsync path) (mret tt).
Definition f_close (path : string) : M world unit := attempt (Close path) (mret tt).

(** [os.remove(path)] *)
Definition os_remove (path : string) : M world unit :=
  attempt (Remove path)
    (content ← gets (λ w, files w !! path);
     match content with
     | Some _ => modify (λ w, with_files (delete path (files w)) w)
     | None => raise (no_such_file path)
     end).

(** [os.rename(src, dst)]: replaces [dst], except on Windows, where an
    existing [dst] is an error. *)
Definition os_rename (src dst : string) : M world unit :=
  attempt (Rename src dst)
    (content ← gets (λ w, files w !! src);
     occupied ← gets (λ w, bool_decide (is_Some (files w !! dst)));
     match content with
     | None => raise (no_such_file src)
     | Some text =>
         if String.eqb os_name "nt" && (occupied : bool)
         then raise (mk_exn FileExistsError
                       ("[WinError 183] Cannot create a file when that file already exists: '"
                        +:+ src +:+ "' -> '" +:+ dst +:+ "'") None)
         else modify (λ w, with_files (<[dst := text]> (delete src (files w))) w)
     end).

(** Leaving a [with] block: the file is closed however [body] ends; a
    failure to close while [body]'s exception propagates takes its place. *)
Definition closing {A} (close : M world unit) (body : M world A) : M world A :=
  λ w, match body w with
       | (Returns a, w1) => (close;; mret a) w1
       | (Raises e, w1) =>
           match close w1 with
           | (Returns _, w2) => (Raises e, w2)
           | (Raises (mk_exn cls text _), w2) => (Raises (mk_exn cls text (Some e)), w2)
           end
       end.

(** [with opened as f: body] *)
Definition with_file {F A} (opened : M world F) (close : M world unit)
    (body : F → M world A) : M world A :=
  f ← opened;
  closing close (body f).

Definition default_preferences : json := JObj [("preferred_location_id", JNull)].

Definition unbound_temp_file (cause : exn) : exn :=
  mk_exn UnboundLocalError
    "cannot access local variable 'temp_file' where it is not associated with a value"
    (Some cause).

(** The [except Exception as e:] clause of [_save_preferences], lines
    166-174. [temp_file] is the local variable as the clause finds it:
    [None] while it has not been assigned. *)
Definition on_save_failure (temp_file : option string) (e : exn) : M world unit :=
  print ("Error: Could not save preferences to " +:+ PREFERENCES_FILE +:+ ": " +:+ py_str_exn e);;
  match temp_file with
  | None => raise (unbound_temp_file e)
  | Some path =>
      leftover ← os_path_exists path;
      (if (leftover : bool)
       then try_except (os_remove path) (λ _, mret tt)
       else mret tt);;
      raise e
  end.

(** Lines 154-165 of [_save_preferences]: write the temporary file, then
    put it in the place of the preferences file. *)
Definition write_and_replace (preferences : json) (temp_file : string) : M world unit :=
  with_file (open_write temp_file) (f_close temp_file) (λ _,
    json_dump preferences temp_file;;
    f_flush temp_file;;
    os_fsync temp_file);;
  (if String.eqb os_name "nt"
   then present ← os_path_exists PREFERENCES_FILE;
        if (present : bool) then os_remove PREFERENCES_FILE else mret tt
   else mret tt);;
  os_rename temp_file PREFERENCES_FILE;;
  print ("Preferences saved successfully to " +:+ PREFERENCES_FILE).

(** [_save_preferences].  The one [try] block is written as two, split at
    the assignment of [temp_file] (line 153): the [except] clause sees the
    variable unassigned for a failure of line 150, assigned afterwards. *)
Definition _save_preferences (preferences : json) : M world unit :=
  try_except (os_makedirs (os_path_dirname PREFERENCES_FILE)) (on_save_failure None);;
  let temp_file := PREFERENCES_FILE +:+ ".tmp" in
  try_except (write_and_replace preferences temp_file) (on_save_failure (Some temp_file)).

(** The body of the [try] of [_load_preferences], lines 117-132. *)
Definition read_preferences : M world json :=
  os_makedirs (os_path_dirname PREFERENCES_FILE);;
  present ← os_path_exists PREFERENCES_FILE;
  if (present : bool)
  then
    with_file (open_read PREFERENCES_FILE) (f_close PREFERENCES_FILE) (λ f,
      raw ← f_read PREFERENCES_FILE f;
      let content := py_strip raw in
      if str_truthy content
      then lift_outcome (json_loads content)
      else mret default_preferences)
  else
    let default_prefs := default_preferences in
    _save_preferences default_prefs;;
    mret default_prefs.

Definition could_not_load_warning (e : exn) : string :=
  "Warning: Could not load preferences from " +:+ PREFERENCES_FILE +:+ ": " +:+ py_str_exn e.

(** The clause [except (json.JSONDecodeError, IOError) as e:], lines 133-141. *)
Definition on_unreadable_preferences (e : exn) : M world json :=
  print (could_not_load_warning e);;
  let default_prefs := default_preferences in
  try_except (_save_preferences default_prefs)
    (λ save_error,
       print ("Warning: Could not create default preferences file: " +:+ py_str_exn save_error));;
  mret default_prefs.

(** The clause [except Exception as e:], lines 142-144. *)
Definition on_unexpected_load_error (e : exn) : M world json :=
  print ("Warning: Unexpected error loading preferences: " +:+ py_str_exn e);;
  mret default_preferences.

Definition _load_preferences : M world json :=
  try_except read_preferences
    (λ e, if is_JSONDecodeError (exn_cls e) || is_OSError (exn_cls e)
          then on_unreadable_preferences e
          else on_unexpected_load_error e).

Definition get_preferred_location_id : M world json :=
  preferences ← _load_preferences;
  location_id ← py_get preferences "preferred_location_id";
  print ("Retrieved preferred location ID: " +:+ py_str location_id);;
  mret location_id.

(** Lines 185-188 of [set_preferred_location_id]: load, assign, save. *)
Definition write_location (location_id : string) : M world unit :=
  print ("Setting preferred location ID to: " +:+ location_id);;
  preferences ← _load_preferences;
  preferences ← py_setitem preferences "preferred_location_id" (JStr location_id);
  _save_preferences preferences.

(** Lines 191-192: read the value back. *)
Definition read_back : M world json :=
  saved_preferences ← _load_preferences;
  py_get saved_preferences "preferred_location_id".

Definition verification_failure (location_id : string) (saved_location_id : json) : exn :=
  mk_exn Exception_
    ("Failed to save preferred location. Expected: " +:+ location_id
     +:+ ", Got: " +:+ py_str saved_location_id) None.

Definition set_preferred_location_id (location_id : string) : M world unit :=
  write_location location_id;;
  saved_location_id ← read_back;
  if py_ne_str saved_location_id location_id
  then raise (verification_failure location_id saved_location_id)
  else print ("Successfully saved preferred location ID: " +:+ location_id).

(** *** Vocabulary of the statements *)

(** The next [n] filesystem operations are not refused. *)
Fixpoint granted (n : nat) (script : list (option exn)) : bool :=
  match n, script with
  | 0, _ => true
  | S _, [] => true
  | S m, None :: rest => granted m rest
  | S _, Some _ :: _ => false
  end.

(** The world after the four operations by which [_load_preferences] reads
    an existing file: makedirs, open, read, close. *)
Definition after_read (w : world) : world :=
  World ({[os_path_dirname PREFERENCES_FILE]} ∪ dirs w) (files w)
        (tail (tail (tail (tail (faults w)))))
        (journal w ++ [Makedirs (os_path_dirname PREFERENCES_FILE);
                       OpenRead PREFERENCES_FILE; Read PREFERENCES_FILE;
                       Close PREFERENCES_FILE]).

(** The text is valid JSON for the value [v]. *)
Definition parses_to (text : string) (v : json) : Prop :=
  str_truthy (py_strip text) = true ∧ json_loads (py_strip text) = Returns v.

(** A program that only ever adds to the journal. *)
Definition appends {A} (m : M world A) : Prop :=
  ∀ w, ∃ evs, journal (snd (m w)) = journal w ++ evs.

(** The codec gives back the value it wrote. *)
Definition round_trips (v : json) : Prop := parses_to (json_dumps v) v.

(** What the preferences file amounts to for a reader that is refused
    nothing: the parsed content, and the default record when the file is
    absent, blank or does not parse. *)
Definition stored_preferences (w : world) : json :=
  match files w !! PREFERENCES_FILE with
  | None => default_preferences
  | Some text =>
      if str_truthy (py_strip text)
      then match json_loads (py_strip text) with
           | Returns v => v
           | Raises _ => default_preferences
           end
      else default_preferences
  end.

(** The text is not valid JSON. *)
Definition invalid_json (text : string) : Prop :=
  str_truthy (py_strip text) = true
  ∧ ∃ e, json_loads (py_strip text) = Raises e ∧ is_JSONDecodeError (exn_cls e) = true.

(** The policy "an empty file is treated like a corrupt one": on a file
    that is empty or holds invalid JSON, [_load_preferences] returns the
    default record, prints the warning and goes on to save the default
    record, which starts with the [makedirs] of [_save_preferences]. *)
Definition empty_or_invalid_is_warned_and_recreated (w : world) : Prop :=
  ∀ text,
    files w !! PREFERENCES_FILE = Some text →
    text = EmptyString ∨ invalid_json text →
    ∃ w' e before after,
      _load_preferences w = (Returns default_preferences, w')
      ∧ journal w' = before ++ Print (could_not_load_warning e)
                       :: Makedirs (os_path_dirname PREFERENCES_FILE) :: after.

(** A program that reports no success once an operation it attempted was
    refused: when it returns, the part of the script it has used up holds no
    refusal. *)
Definition surfaces_refusals {A} (m : M world A) : Prop :=
  ∀ w a w', m w = (Returns a, w') →
    ∃ k, faults w' = drop k (faults w) ∧ Forall (λ fault, fault = None) (take k (faults w)).

(** The path of the temporary file, line 153. *)
Definition temp_path : string := PREFERENCES_FILE +:+ ".tmp".

(** The record that holds the preferred location and nothing else. *)
Definition only_location (location_id : string) : dict :=
  [("preferred_location_id", JStr location_id)].

End WithRuntime.
End Preferences.

(** ** Concrete surroundings

    A collaborator and a runtime simple enough to run, on which the general
    statements below are exercised. *)
Module Scenarios.

(** *** A scripted collaborator *)

(** The service answers from a script: what the token file holds, whether
    the service accepts the token, and how a refresh ends. *)
Record service : Type := Service {
  token_on_disk : outcome (option dict);
  token_accepted : bool;
  refresh_result : outcome unit;
  handles_built : nat;
}.

Definition scripted : Session.Collaborator service := {|
  Session.load_token _ s := (token_on_disk s, s);
  Session.KrogerAPI s :=
    (Returns (S (handles_built s)),
     Service (token_on_disk s) (token_accepted s) (refresh_result s) (S (handles_built s)));
  Session.set_token_info _ _ s := s;
  Session.set_token_file _ _ s := s;
  Session.test_current_token _ s := (Returns (token_accepted s), s);
  Session.refresh_token _ _ s :=
    match refresh_result s with
    | Returns _ =>
        (Returns tt, Service (token_on_disk s) true (refresh_result s) (handles_built s))
    | Raises e => (Raises e, s)
    end;
  Session.client_credentials _ s := (Returns tt, s);
|}.

Definition configured : gmap string string :=
  <["KROGER_CLIENT_ID" := "my-client"]>
    (<["KROGER_CLIENT_SECRET" := "s3cret"]>
       (<["KROGER_REDIRECT_URI" := "http://localhost:8000/callback"]> ∅)).

(** Only the client id is set, and the redirect URI is set but empty. *)
Definition half_configured : gmap string string :=
  <["KROGER_CLIENT_ID" := "my-client"]> (<["KROGER_REDIRECT_URI" := EmptyString]> ∅).

Definition fresh_session (env : gmap string string) (s : service) : Session.world service :=
  Session.World env s None None [].

Definition expired_token : dict :=
  [("access_token", JStr "old-access"); ("refresh_token", JStr "old-refresh");
   ("expires_in", JNum 1800)].

(** The token file cannot be read, and the error text happens to speak of
    authentication. *)
Definition token_store_locked : exn :=
  mk_exn PermissionError "Authentication required to unlock the token store" None.

Definition locked_store : service :=
  Service (Raises token_store_locked) false (Returns tt) 0.

(** An expired token whose refresh the service rejects. *)
Definition refresh_rejected : exn :=
  mk_exn RuntimeError "400 Bad Request: invalid_grant" None.

Definition stale_session_service : service :=
  Service (Returns (Some expired_token)) false (Raises refresh_rejected) 0.

(** The application's credentials are rejected. *)
Definition invalid_client : exn :=
  mk_exn RuntimeError "401 Unauthorized: invalid_client" None.

(** The scripted collaborator, with an app-level authorization that the
    service grants only when [token_accepted] is set. *)
Definition scripted_app : Session.Collaborator service := {|
  Session.load_token := Session.load_token (Collaborator := scripted);
  Session.KrogerAPI := Session.KrogerAPI (Collaborator := scripted);
  Session.set_token_info := Session.set_token_info (Collaborator := scripted);
  Session.set_token_file := Session.set_token_file (Collaborator := scripted);
  Session.test_current_token := Session.test_current_token (Collaborator := scripted);
  Session.refresh_token := Session.refresh_token (Collaborator := scripted);
  Session.client_credentials _ s :=
    if token_accepted s then (Returns tt, s) else (Raises invalid_client, s);
|}.

(** The service cannot be reached: every validity check raises. *)
Definition network_down : exn := mk_exn OSError "[Errno 101] Network is unreachable" None.

Definition scripted_offline : Session.Collaborator service := {|
  Session.load_token := Session.load_token (Collaborator := scripted);
  Session.KrogerAPI := Session.KrogerAPI (Collaborator := scripted);
  Session.set_token_info := Session.set_token_info (Collaborator := scripted);
  Session.set_token_file := Session.set_token_file (Collaborator := scripted);
  Session.test_current_token _ s := (Raises network_down, s);
  Session.refresh_token := Session.refresh_token (Collaborator := scripted);
  Session.client_credentials := Session.client_credentials (Collaborator := scripted);
|}.

(** An expired token that the service refreshes. *)
Definition refreshing_service : service :=
  Service (Returns (Some expired_token)) false (Returns tt) 0.

(** A token record without a refresh credential. *)
Definition bare_token : dict := [("access_token", JStr "old-access")].

Definition bare_token_service : service :=
  Service (Returns (Some bare_token)) false (Returns tt) 0.

(** No token file. *)
Definition signed_out_service : service :=
  Service (Returns None) false (Returns tt) 0.

(** A token the service accepts. *)
Definition good_service : service :=
  Service (Returns (Some expired_token)) true (Returns tt) 0.

(** *** A runtime *)

Definition quote_mark : string := String (ascii_of_nat 34) EmptyString.
Definition backslash : string := String (ascii_of_nat 92) EmptyString.
Definition newline : string := String (ascii_of_nat 10) EmptyString.

Definition hex_digit (n : nat) : string :=
  String.substring n 1 "0123456789abcdef".

(** One character inside a JSON string, as [json.dumps] with
    [ensure_ascii=False] writes it. *)
Definition escape_char (c : ascii) : string :=
  let n := nat_of_ascii c in
  if n =? 34 then backslash +:+ quote_mark
  else if n =? 92 then backslash +:+ backslash
  else if n =? 8 then backslash +:+ "b"
  else if n =? 9 then backslash +:+ "t"
  else if n =? 10 then backslash +:+ "n"
  else if n =? 12 then backslash +:+ "f"
  else if n =? 13 then backslash +:+ "r"
  else if n <? 32 then backslash +:+ "u00" +:+ hex_digit (n / 16) +:+ hex_digit (n mod 16)
  else String c EmptyString.

Fixpoint escape (s : string) : string :=
  match s with
  | EmptyString => EmptyString
  | String c rest => escape_char c +:+ escape rest
  end.

Definition quoted (s : string) : string := quote_mark +:+ escape s +:+ quote_mark.

Fixpoint spaces (n : nat) : string :=
  match n with
  | 0 => EmptyString
  | S m => String " "%char (spaces m)
  end.

(** [json.dumps(v, indent=2, ensure_ascii=False)] at nesting depth [level]. *)
Fixpoint json_text (level : nat) (v : json) : string :=
  let inner := newline +:+ spaces (2 * S level) in
  let outer := newline +:+ spaces (2 * level) in
  match v with
  | JNull => "null"
  | JBool true => "true"
  | JBool false => "false"
  | JNum n => NilZero.string_of_int (Z.to_int n)
  | JStr s => quoted s
  | JArr [] => "[]"
  | JArr items =>
      "[" +:+ inner
      +:+ String.concat ("," +:+ inner) (List.map (json_text (S level)) items)
      +:+ outer +:+ "]"
  | JObj [] => "{}"
  | JObj members =>
      "{" +:+ inner
      +:+ String.concat ("," +:+ inner)
            (List.map (λ member, quoted (fst member) +:+ ": " +:+ json_text (S level) (snd member))
               members)
      +:+ outer +:+ "}"
  end.

(** A decoder that recognises the encodings of the [known] values and
    rejects every other text. *)
Definition loads_known (known : list json) (text : string) : outcome json :=
  match List.find (λ v, String.eqb (json_text 0 v) text) known with
  | Some v => Returns v
  | None => Raises (mk_exn JSONDecodeError "Expecting value: line 1 column 1 (char 0)" None)
  end.

(** [posixpath.dirname] for paths without a trailing or doubled slash. *)
Fixpoint before_last_slash (path : string) : option string :=
  match path with
  | EmptyString => None
  | String c rest =>
      match before_last_slash rest with
      | Some head => Some (String c head)
      | None => if Ascii.eqb c "/"%char then Some EmptyString else None
      end
  end.

Definition posix_dirname (path : string) : string :=
  match before_last_slash path with
  | Some EmptyString => "/"
  | Some head => head
  | None => EmptyString
  end.

(** [repr] of containers is not needed by the scenarios. *)
Definition container_repr (v : json) : string :=
  match v with JArr [] => "[]" | JObj [] => "{}" | JArr _ => "[...]" | _ => "{...}" end.

Definition runtime_on (name : string) (known : list json) : Preferences.Runtime := {|
  Preferences.os_name := name;
  Preferences.PREFERENCES_FILE := "/home/shopper/.kroger_mcp_preferences.json";
  Preferences.os_path_dirname := posix_dirname;
  Preferences.json_dumps := json_text 0;
  Preferences.json_loads := loads_known known;
  Preferences.py_repr := container_repr;
|}.

Definition prefs_path : string := "/home/shopper/.kroger_mcp_preferences.json".
Definition temp_prefs_path : string := "/home/shopper/.kroger_mcp_preferences.json.tmp".

(** A record with a key the module knows nothing about. *)
Definition themed_record : dict := [("theme", JStr "dark"); ("preferred_location_id", JStr "70100023")].
Definition themed_only : dict := [("theme", JStr "dark")].

Definition known_values : list json :=
  [Preferences.default_preferences;
   JObj themed_record; JObj themed_only;
   JObj [("preferred_location_id", JStr "123")];
   JObj [("theme", JStr "dark"); ("preferred_location_id", JStr "123")]].

Definition posix : Preferences.Runtime := runtime_on "posix" known_values.

(** A runtime that also knows the empty array. *)
Definition posix_with_arrays : Preferences.Runtime :=
  runtime_on "posix" (JArr [] :: known_values).

(** The file is not UTF-8. *)
Definition bad_utf8 : exn :=
  mk_exn UnicodeDecodeError
    "'utf-8' codec can't decode byte 0xff in position 0: invalid start byte" None.


(** The same runtime on Windows. *)
Definition windows : Preferences.Runtime := runtime_on "nt" known_values.

Definition disk (content : option string) (script : list (option exn)) : Preferences.world :=
  Preferences.World {["/home/shopper"]}
    (match content with Some text => {[prefs_path := text]} | None => ∅ end)
    script [].

(** The text of a record, as the runtime writes it. *)
Definition text_of (record : dict) : string := json_text 0 (JObj record).

(** Text that is not JSON. *)
Definition torn_text : string := "{ preferred_location_id: ".

(** A script that grants the next [n] operations and refuses the one after
    them. *)
Definition refuse_after (n : nat) (e : exn) : list (option exn) :=
  replicate n None ++ [Some e].

Definition home_read_only : exn :=
  mk_exn PermissionError "[Errno 13] Permission denied: '/home/shopper'" None.

End Scenarios.

(** * Facts about Python strings *)
Module StringFacts.

Lemma str_app_empty (t : string) : EmptyString +:+ t = t.
Proof. reflexivity. Qed.

Lemma str_app_cons (c : ascii) (s t : string) : String c s +:+ t = String c (s +:+ t).
Proof. reflexivity. Qed.

Lemma str_app_assoc (a b c : string) : (a +:+ b) +:+ c = a +:+ b +:+ c.
Proof.
  induction a as [|x a IH]; [reflexivity|].
  rewrite !str_app_cons. by rewrite IH.
Qed.

Lemma prefix_app (a b : string) : str_startswith (a +:+ b) a = true.
Proof.
  induction a as [|x a IH]; [reflexivity|].
  rewrite str_app_cons. cbn [str_startswith].
  by rewrite Ascii.eqb_refl, IH.
Qed.

Lemma prefix_split (a h : string) : str_startswith h a = true → ∃ b, h = a +:+ b.
Proof.
  revert h. induction a as [|x a IH]; intros h Hp.
  - by exists h.
  - destruct h as [|y h]; [discriminate|]. cbn [str_startswith] in Hp.
    apply andb_true_iff in Hp as [Hxy Hp]. apply Ascii.eqb_eq in Hxy as ->.
    destruct (IH _ Hp) as [b ->]. by exists b.
Qed.

Lemma str_contains_intro (before needle after : string) :
  str_contains needle (before +:+ needle +:+ after) = true.
Proof.
  induction before as [|x before IH].
  - rewrite str_app_empty. destruct (needle +:+ after) eqn:E; cbn [str_contains].
    + by rewrite <- E, prefix_app.
    + by rewrite <- E, prefix_app.
  - rewrite str_app_cons. cbn [str_contains]. rewrite IH. apply orb_true_r.
Qed.

(** [str_contains] decides [Substring]. *)
Lemma str_contains_Substring (needle hay : string) :
  str_contains needle hay = true ↔ Substring needle hay.
Proof.
  split.
  - induction hay as [|x hay IH]; cbn [str_contains]; intros H.
    + apply orb_true_iff in H as [H|H]; [|discriminate].
      apply prefix_split in H as [b Hb]. by exists EmptyString, b.
    + apply orb_true_iff in H as [H|H].
      * apply prefix_split in H as [b Hb]. by exists EmptyString, b.
      * destruct (IH H) as (before & after & ->).
        by exists (String x before), after.
  - intros (before & after & ->). apply str_contains_intro.
Qed.

Lemma Substring_refl (s : string) : Substring s s.
Proof.
  exists EmptyString, EmptyString. rewrite str_app_empty.
  induction s as [|x s IH]; [reflexivity|]. rewrite str_app_cons. by rewrite <- IH.
Qed.

Lemma Substring_app_l (needle a b : string) : Substring needle a → Substring needle (a +:+ b).
Proof.
  intros (before & after & ->). exists before, (after +:+ b).
  by rewrite !str_app_assoc.
Qed.

Lemma Substring_app_r (needle a b : string) : Substring needle b → Substring needle (a +:+ b).
Proof.
  intros (before & after & ->). exists (a +:+ before), after.
  by rewrite !str_app_assoc.
Qed.

(** Every part of a joined string occurs in it. *)
Lemma Substring_join (sep part : string) (parts : list string) :
  part ∈ parts → Substring part (str_join sep parts).
Proof.
  unfold str_join. induction parts as [|p parts IH]; intros Hin.
  - by apply elem_of_nil in Hin.
  - apply elem_of_cons in Hin as [->|Hin].
    + destruct parts; cbn [String.concat]; [apply Substring_refl|].
      apply Substring_app_l, Substring_refl.
    + destruct parts as [|q parts]; [by apply elem_of_nil in Hin|].
      cbn [String.concat]. apply Substring_app_r, Substring_app_r.
      exact (IH Hin).
Qed.

(** *** Dictionaries *)

Lemma dict_lookup_set_eq (key : string) (v : json) (d : dict) :
  dict_lookup key (dict_set key v d) = Some v.
Proof.
  induction d as [|[k old] d IH]; cbn.
  - by rewrite String.eqb_refl.
  - destruct (String.eqb k key) eqn:E; cbn; by rewrite E.
Qed.

Lemma dict_lookup_set_ne (key other : string) (v : json) (d : dict) :
  other ≠ key → dict_lookup other (dict_set key v d) = dict_lookup other d.
Proof.
  intros Hne. induction d as [|[k old] d IH]; cbn.
  - apply String.eqb_neq in Hne. by rewrite String.eqb_sym, Hne.
  - destruct (String.eqb k key) eqn:E; cbn.
    + apply String.eqb_eq in E as ->.
      apply String.eqb_neq in Hne. by rewrite String.eqb_sym, Hne.
    + by rewrite IH.
Qed.

Lemma dict_set_set (key : string) (v1 v2 : json) (d : dict) :
  dict_set key v2 (dict_set key v1 d) = dict_set key v2 d.
Proof.
  induction d as [|[k old] d IH]; cbn.
  - by rewrite String.eqb_refl.
  - destruct (String.eqb k key) eqn:E; cbn; rewrite E; [done|]. by rewrite IH.
Qed.

End StringFacts.

(** * The definitions on small inputs *)
Module Checks.
Import Scenarios.

Example contains_is_case_sensitive :
  str_contains "Authentication required" "401 Unauthorized: Authentication required" = true
  ∧ str_contains "Authentication required" "authentication required" = false.
Proof. split; reflexivity. Qed.

Example contains_empty_needle : str_contains EmptyString "abc" = true.
Proof. reflexivity. Qed.

Example strip_keeps_inner_blanks :
  py_strip ("  " +:+ newline +:+ "a b" +:+ newline) = "a b".
Proof. reflexivity. Qed.

Example strip_of_blank_is_empty : py_strip (" " +:+ newline +:+ " ") = EmptyString.
Proof. reflexivity. Qed.

Example dict_set_replaces_in_place :
  dict_set "b" (JNum 5) [("a", JNum 1); ("b", JNum 2); ("c", JNum 3)]
  = [("a", JNum 1); ("b", JNum 5); ("c", JNum 3)].
Proof. reflexivity. Qed.

Example dict_set_appends_new_key :
  dict_set "z" JNull [("a", JNum 1)] = [("a", JNum 1); ("z", JNull)].
Proof. reflexivity. Qed.

Example text_of_default_record :
  json_text 0 Preferences.default_preferences
  = "{" +:+ newline +:+ "  " +:+ quote_mark +:+ "preferred_location_id" +:+ quote_mark
    +:+ ": null" +:+ newline +:+ "}".
Proof. reflexivity. Qed.

Example join_of_names : str_join ", " ["A"; "B"; "C"] = "A, B, C".
Proof. reflexivity. Qed.

End Checks.

(** * Facts about the monad *)
Module MonadFacts.

Lemma run_bind {S A B} (m : M S A) (k : A → M S B) (s : S) :
  (m ≫= k) s =
  match m s with
  | (Returns a, s') => k a s'
  | (Raises e, s') => (Raises e, s')
  end.
Proof. reflexivity. Qed.

Lemma run_try_except {S A} (body : M S A) (handler : exn → M S A) (s : S) :
  try_except body handler s =
  match body s with
  | (Raises e, s') => handler e s'
  | (Returns a, s') => (Returns a, s')
  end.
Proof. unfold try_except. by destruct (body s) as [[a|e] s']. Qed.

(** Splits on the innermost scrutinee the goal is stuck on. *)
Ltac case_step :=
  match goal with
  | |- context [match ?x with _ => _ end] =>
      lazymatch x with
      | context [match _ with _ => _ end] => fail
      | _ => destruct x eqn:?
      end
  end.

End MonadFacts.

(** * The session cache *)
Module SessionFacts.
Import Session StringFacts MonadFacts.

(** Runs the monadic program of the goal as far as it is determined. *)
Ltac run :=
  repeat (progress (unfold mbind, M_bind, mret, M_ret, collaborate, modify, gets,
                    raise, raise_from_handler, lift_outcome, try_except; cbn)).

Section WithCollaborator.
Context {L : Type} `{!Collaborator L}.
Implicit Types w : world L.

Lemma collect_missing_spec (required_vars acc : list string) w :
  collect_missing required_vars acc w =
  (Returns (acc ++ missing_from (environ w) required_vars), asked required_vars w).
Proof.
  revert acc w. induction required_vars as [|var rest IH]; intros acc w.
  - destruct w. unfold asked, missing_from. cbn. by rewrite !app_nil_r.
  - cbn [collect_missing]. rewrite run_bind. cbn [os_getenv].
    unfold missing_from. rewrite filter_cons.
    destruct (env_truthy (environ w !! var)) eqn:E; cbn [negb];
      rewrite IH; unfold asked, record_call, missing_from; cbn;
      case_decide; try congruence; by rewrite <- ?app_assoc.
Qed.

Lemma load_and_validate_env_spec (required_vars : list string) w :
  load_and_validate_env required_vars w =
  (match missing_from (environ w) required_vars with
   | [] => Returns tt
   | missing => Raises (mk_exn ValueError (missing_message missing) None)
   end, asked required_vars w).
Proof.
  unfold load_and_validate_env. rewrite run_bind, collect_missing_spec. cbn [app].
  by destruct (missing_from _ _).
Qed.

Lemma elem_of_missing_from (env : gmap string string) (required_vars : list string) (var : string) :
  var ∈ missing_from env required_vars ↔ var ∈ required_vars ∧ env_truthy (env !! var) = false.
Proof. unfold missing_from. rewrite list_elem_of_filter. tauto. Qed.

(** What [not os.getenv(var)] tests: the variable is unset, or set to the
    empty string. *)
Lemma env_truthy_false_iff (v : option string) :
  env_truthy v = false ↔ v = None ∨ v = Some EmptyString.
Proof.
  destruct v as [[|c s]|]; cbn; split; try done; try (by auto);
    by intros [|].
Qed.

Lemma env_truthy_true_iff (v : option string) :
  env_truthy v = true ↔ ∃ value, v = Some value ∧ value ≠ EmptyString.
Proof.
  destruct v as [[|c s]|]; cbn; split; try done.
  - by intros (value & [= <-] & Hne).
  - intros _. by eexists.
  - by intros (value & ? & _).
Qed.

(** C3. The variables that [load_and_validate_env] finds missing are those
    of the required ones that are unset or set to the empty string. It
    returns normally exactly when every required variable is set to a
    non-empty value, and otherwise raises one [ValueError] whose message
    names every missing variable, not only the first. *)
Theorem load_and_validate_env_names_every_missing (required_vars : list string) w :
  let missing := missing_from (environ w) required_vars in
  (∀ var, var ∈ missing ↔
          var ∈ required_vars
          ∧ (environ w !! var = None ∨ environ w !! var = Some EmptyString))
  ∧ fst (load_and_validate_env required_vars w) =
      match missing with
      | [] => Returns tt
      | _ => Raises (mk_exn ValueError (missing_message missing) None)
      end
  ∧ Forall (λ var, Substring var (missing_message missing)) missing
  ∧ (fst (load_and_validate_env required_vars w) = Returns tt ↔
     ∀ var, var ∈ required_vars →
            ∃ value, environ w !! var = Some value ∧ value ≠ EmptyString).
Proof.
  intros missing.
  assert (∀ var, var ∈ missing ↔
                 var ∈ required_vars
                 ∧ (environ w !! var = None ∨ environ w !! var = Some EmptyString)) as Hmissing.
  { intros var. unfold missing. by rewrite elem_of_missing_from, env_truthy_false_iff. }
  split; [exact Hmissing|]. split; [|split].
  - rewrite load_and_validate_env_spec. by destruct (missing_from _ _).
  - apply Forall_forall. intros var Hin.
    apply Substring_app_r, Substring_join, Hin.
  - rewrite load_and_validate_env_spec. cbn [fst]. fold missing. split.
    + intros Hreturns var Hin. apply env_truthy_true_iff.
      destruct (env_truthy (environ w !! var)) eqn:Htruthy; [done|].
      assert (var ∈ missing) as Hvar
        by (apply Hmissing; split; [done|]; by apply env_truthy_false_iff).
      destruct missing; [by apply elem_of_nil in Hvar | discriminate].
    + intros Hall. destruct missing as [|var rest] eqn:Hm; [done|].
      assert (var ∈ var :: rest) as Hvar by left.
      apply Hmissing in Hvar as [Hin Hunset].
      destruct (Hall var Hin) as (value & Hvalue & Hne).
      rewrite Hvalue in Hunset. destruct Hunset as [|[= ->]]; done.
Qed.

(** The text of the signal contains the words the handler looks for. *)
Lemma signal_is_recognised :
  str_contains "Authentication required" (py_str_exn authentication_required) = true.
Proof. reflexivity. Qed.

Lemma cached_client_valid_miss w w0 :
  cached_client_valid w = (Returns None, w0) →
  get_authenticated_client w =
  try_except recover_user_client on_recovery_failure (with_authenticated_client None w0).
Proof.
  intros Hc. unfold get_authenticated_client. rewrite run_bind, Hc. reflexivity.
Qed.

(** C1, as the code has it. A failure of the recovery whose text contains
    the words "Authentication required", as the text of the signal does,
    propagates unchanged; every other failure is raised again as
    "Authentication failed: ..." with the original failure as its context. *)
Theorem recovery_failures_told_apart_by_text w w0 (e : exn) w1 :
  cached_client_valid w = (Returns None, w0) →
  recover_user_client (with_authenticated_client None w0) = (Raises e, w1) →
  get_authenticated_client w =
    (Raises (if str_contains "Authentication required" (py_str_exn e)
             then e else authentication_failed e), w1)
  ∧ str_contains "Authentication required" (py_str_exn authentication_required) = true.
Proof.
  intros Hc Hr. split; [|reflexivity].
  rewrite (cached_client_valid_miss _ _ Hc). unfold try_except. rewrite Hr.
  unfold on_recovery_failure. by destruct (str_contains _ _).
Qed.

Lemma cached_client_valid_environ w r w0 :
  cached_client_valid w = (r, w0) → environ w0 = environ w.
Proof.
  unfold cached_client_valid. rewrite run_bind. cbn [gets].
  destruct (_authenticated_client w) as [h|]; [|by intros [= _ <-]].
  rewrite run_bind. unfold collaborate.
  destruct (test_current_token h _) as [[valid|e] l]; by intros [= _ <-].
Qed.

(** C2. When a persisted token record exists, its token fails validation, it
    holds a refresh credential, and the refresh fails, the accessor raises
    the authentication-required signal, not a wrapped failure; the cache is
    left empty. *)
Theorem failed_refresh_raises_authentication_required
    w w0 (info : dict) (h : handle) (credential : json) (l1 l2 l3 l4 : L) (e : exn) :
  cached_client_valid w = (Returns None, w0) →
  missing_from (environ w) user_oauth_vars = [] →
  load_token TOKEN_FILE (lib w0) = (Returns (Some info), l1) →
  info ≠ [] →
  KrogerAPI l1 = (Returns h, l2) →
  test_current_token h (set_token_file h TOKEN_FILE (set_token_info h info l2))
    = (Returns false, l3) →
  dict_lookup "refresh_token" info = Some credential →
  refresh_token h credential l3 = (Raises e, l4) →
  ∃ w', get_authenticated_client w = (Raises authentication_required, w')
        ∧ _authenticated_client w' = None
        ∧ lib w' = l4
        ∧ calls w' = calls w0 ++ map CallGetenv user_oauth_vars
                     ++ [CallLoadToken TOKEN_FILE; CallKrogerAPI; CallTestCurrentToken h;
                         CallRefreshToken h credential].
Proof.
  intros Hc Henv Hload Hinfo Hnew Htest Hcred Hrefresh.
  rewrite (cached_client_valid_miss _ _ Hc).
  rewrite <- (cached_client_valid_environ _ _ _ Hc) in Henv.
  unfold try_except, recover_user_client.
  rewrite run_bind, load_and_validate_env_spec.
  cbn [environ with_authenticated_client]. unfold user_oauth_vars in Henv. rewrite Henv.
  unfold TOKEN_FILE in *.
  destruct info as [|member info]; [done|].
  run. rewrite Hload. run. rewrite Hnew. run. rewrite Htest. run.
  unfold try_refresh. rewrite Hcred. run. rewrite Hrefresh. run.
  eexists. split; [reflexivity|]. cbn. repeat split.
  by rewrite <- !app_assoc.
Qed.

Lemma cached_handle_fast_path w (h : handle) (l' : L) :
  _authenticated_client w = Some h →
  test_current_token h (lib w) = (Returns true, l') →
  get_authenticated_client w =
  (Returns h, with_lib l' (record_call (CallTestCurrentToken h) w)).
Proof.
  intros Hcached Hvalid. unfold get_authenticated_client, cached_client_valid.
  run. rewrite Hcached. run. rewrite Hvalid. reflexivity.
Qed.

Lemma on_recovery_failure_raises {A} (e : exn) w :
  ∃ e', on_recovery_failure (A := A) e w = (Raises e', w).
Proof. unfold on_recovery_failure. destruct (str_contains _ _); by eexists. Qed.

Lemma recovered_handle_is_cached w (h : handle) w1 :
  recover_user_client w = (Returns h, w1) → _authenticated_client w1 = Some h.
Proof.
  unfold recover_user_client. rewrite run_bind, load_and_validate_env_spec.
  destruct (missing_from _ _); [|discriminate].
  unfold try_refresh. run.
  repeat (case_step; run); intros; simplify_eq; done.
Qed.

Lemma cached_client_valid_hit w (h : handle) w0 :
  cached_client_valid w = (Returns (Some h), w0) → _authenticated_client w0 = Some h.
Proof.
  unfold cached_client_valid. run.
  destruct (_authenticated_client w) as [h0|] eqn:Hcached; run; [|discriminate].
  destruct (test_current_token h0 (lib w)) as [[[]|e] l']; run; by intros [= <- <-].
Qed.

(** Whatever handle the accessor returns is the one left in the cache. *)
Lemma accessor_caches_what_it_returns w (h : handle) w1 :
  get_authenticated_client w = (Returns h, w1) → _authenticated_client w1 = Some h.
Proof.
  unfold get_authenticated_client. rewrite run_bind.
  destruct (cached_client_valid w) as [[[h0|]|e] w0] eqn:Hc; [| |discriminate].
  - intros [= <- <-]. by apply cached_client_valid_hit in Hc.
  - rewrite run_bind. cbn [modify]. unfold try_except.
    destruct (recover_user_client _) as [[h'|e] w'] eqn:Hr.
    + intros [= <- <-]. by apply recovered_handle_is_cached in Hr.
    + destruct (on_recovery_failure_raises (A := handle) e w') as [e' ->]. discriminate.
Qed.

(** C4. After a call that returned a handle, a second call with no
    invalidation in between, during which the token still validates, returns
    the very same handle, and all it does is the one validity check: no
    configuration is read, no token loaded, no refresh attempted. *)
Theorem second_call_returns_cached_handle w (h : handle) w1 (l2 : L) :
  get_authenticated_client w = (Returns h, w1) →
  test_current_token h (lib w1) = (Returns true, l2) →
  ∃ w2, get_authenticated_client w1 = (Returns h, w2)
        ∧ calls w2 = calls w1 ++ [CallTestCurrentToken h]
        ∧ _authenticated_client w2 = Some h
        ∧ lib w2 = l2
        ∧ environ w2 = environ w1.
Proof.
  intros Hfirst Hvalid. apply accessor_caches_what_it_returns in Hfirst.
  eexists. split; [by apply cached_handle_fast_path|]. done.
Qed.


End WithCollaborator.

(** *** The statements at work, on the scripted collaborator *)

#[local] Existing Instance Scenarios.scripted.

(** With the secret unset and the redirect URI set to the empty string,
    both are named, and the client id, which is set, is not. *)
Lemma load_and_validate_env_names_every_missing_witness :
  let w := Scenarios.fresh_session Scenarios.half_configured Scenarios.good_service in
  let message :=
    "Missing required environment variables: KROGER_CLIENT_SECRET, KROGER_REDIRECT_URI" in
  environ w !! "KROGER_CLIENT_SECRET" = None
  ∧ environ w !! "KROGER_REDIRECT_URI" = Some EmptyString
  ∧ fst (load_and_validate_env user_oauth_vars w) = Raises (mk_exn ValueError message None)
  ∧ Substring "KROGER_CLIENT_SECRET" message
  ∧ Substring "KROGER_REDIRECT_URI" message
  ∧ "KROGER_CLIENT_ID" ∉ missing_from (environ w) user_oauth_vars.
Proof.
  intros w message.
  destruct (load_and_validate_env_names_every_missing user_oauth_vars w)
    as (Hmissing & Hrun & Hnamed & _).
  assert (missing_from (environ w) user_oauth_vars
          = ["KROGER_CLIENT_SECRET"; "KROGER_REDIRECT_URI"]) as Hlist
    by (vm_compute; reflexivity).
  rewrite Hlist in Hrun, Hnamed.
  split; [vm_compute; reflexivity|]. split; [vm_compute; reflexivity|].
  split; [exact Hrun|].
  apply Forall_cons in Hnamed as [Hsecret Hnamed].
  apply Forall_cons in Hnamed as [Huri _].
  split; [exact Hsecret|]. split; [exact Huri|].
  intros Hin. apply Hmissing in Hin as [_ [Hunset | Hempty]]; vm_compute in *; discriminate.
Defined.

(** A missing configuration is no signal, and is wrapped. *)
Lemma recovery_failures_told_apart_by_text_witness :
  let w := Scenarios.fresh_session Scenarios.half_configured Scenarios.stale_session_service in
  let e := mk_exn ValueError
             "Missing required environment variables: KROGER_CLIENT_SECRET, KROGER_REDIRECT_URI"
             None in
  recover_user_client (with_authenticated_client None w) = (Raises e, asked user_oauth_vars w)
  ∧ get_authenticated_client w =
      (Raises (if str_contains "Authentication required" (py_str_exn e)
               then e else authentication_failed e), asked user_oauth_vars w)
  ∧ str_contains "Authentication required" (py_str_exn authentication_required) = true.
Proof.
  intros w e.
  assert (recover_user_client (with_authenticated_client None w)
          = (Raises e, asked user_oauth_vars w)) as Hfails by (vm_compute; reflexivity).
  split; [exact Hfails|].
  apply (recovery_failures_told_apart_by_text w w e (asked user_oauth_vars w));
    [vm_compute; reflexivity | exact Hfails].
Defined.

(** The service rejects the refresh of an expired token. *)
Lemma failed_refresh_raises_authentication_required_witness :
  let w := Scenarios.fresh_session Scenarios.configured Scenarios.stale_session_service in
  ∃ w', get_authenticated_client w = (Raises authentication_required, w')
        ∧ _authenticated_client w' = None
        ∧ lib w' = Scenarios.Service (Returns (Some Scenarios.expired_token)) false
                     (Raises Scenarios.refresh_rejected) 1
        ∧ calls w' = calls w ++ map CallGetenv user_oauth_vars
                     ++ [CallLoadToken TOKEN_FILE; CallKrogerAPI; CallTestCurrentToken 1;
                         CallRefreshToken 1 (JStr "old-refresh")].
Proof.
  intros w.
  apply (failed_refresh_raises_authentication_required w w Scenarios.expired_token 1
           (JStr "old-refresh")
           Scenarios.stale_session_service
           (Scenarios.Service (Returns (Some Scenarios.expired_token)) false
              (Raises Scenarios.refresh_rejected) 1)
           (Scenarios.Service (Returns (Some Scenarios.expired_token)) false
              (Raises Scenarios.refresh_rejected) 1)
           (Scenarios.Service (Returns (Some Scenarios.expired_token)) false
              (Raises Scenarios.refresh_rejected) 1)
           Scenarios.refresh_rejected);
    try (vm_compute; reflexivity).
  discriminate.
Defined.

(** The service accepts the stored token: the first call builds handle 1,
    the second returns it after one validity check. *)
Lemma second_call_returns_cached_handle_witness :
  let w := Scenarios.fresh_session Scenarios.configured Scenarios.good_service in
  let w1 := snd (get_authenticated_client w) in
  fst (get_authenticated_client w) = Returns 1
  ∧ ∃ w2, get_authenticated_client w1 = (Returns 1, w2)
          ∧ calls w2 = calls w1 ++ [CallTestCurrentToken 1]
          ∧ _authenticated_client w2 = Some 1
          ∧ lib w2 = Scenarios.Service (Returns (Some Scenarios.expired_token)) true (Returns tt) 1
          ∧ environ w2 = environ w1.
Proof.
  intros w w1. split; [vm_compute; reflexivity|].
  apply (second_call_returns_cached_handle w 1 w1); vm_compute; reflexivity.
Defined.

(** C1, as claimed, fails: a token file that cannot be read, reported in
    words that mention authentication, is no authentication-required signal,
    and yet it passes unwrapped. *)
Lemma failures_not_told_apart_by_kind :
  ¬ failures_told_apart_by_kind
      (Scenarios.fresh_session Scenarios.configured Scenarios.locked_store).
Proof.
  intros Hclaim.
  destruct (Hclaim (Scenarios.fresh_session Scenarios.configured Scenarios.locked_store)
              Scenarios.token_store_locked
              (snd (recover_user_client
                      (with_authenticated_client None
                         (Scenarios.fresh_session Scenarios.configured Scenarios.locked_store)))))
    as [_ Hwrapped]; [by vm_compute | by vm_compute |].
  assert (Scenarios.token_store_locked ≠ authentication_required) as Hne by discriminate.
  specialize (Hwrapped Hne). vm_compute in Hwrapped. discriminate Hwrapped.
Qed.

End SessionFacts.

(** * The preference store *)
Module PreferencesFacts.
Import Preferences StringFacts MonadFacts.

(** Runs the program of the goal through the filesystem primitives. *)
Ltac run :=
  repeat (progress (unfold mbind, M_bind, mret, M_ret, modify, gets, raise, lift_outcome,
                    try_except, attempt, next_fault, print; cbn)).

Lemma str_length_app (a b : string) : String.length (a +:+ b) = String.length a + String.length b.
Proof.
  induction a as [|x a IH]; [reflexivity|].
  rewrite str_app_cons. cbn [String.length]. by rewrite IH.
Qed.

Lemma granted_nil (n : nat) : granted n [] = true.
Proof. by destruct n. Qed.

Lemma granted_S (n : nat) (script : list (option exn)) :
  granted (S n) script = true →
  default None (head script) = None ∧ granted n (tail script) = true.
Proof.
  destruct script as [|[e|] rest]; cbn; [|done|done].
  intros _. split; [done|apply granted_nil].
Qed.

(** Two descriptions of one world, up to the bracketing of the journal. *)
Ltac same_world :=
  unfold after_read, with_faults, with_files, with_dirs, record_event; cbn;
  rewrite <- ?app_assoc; reflexivity.

Section WithRuntime.
Context `{!Runtime}.
Implicit Types w : world.

Lemma temp_file_differs : PREFERENCES_FILE +:+ ".tmp" ≠ PREFERENCES_FILE.
Proof.
  intros Heq. apply (f_equal String.length) in Heq.
  rewrite str_length_app in Heq. cbn in Heq. lia.
Qed.

(** *** Filesystem operations that are not refused *)

Lemma attempt_granted {A} (ev : event) (op : M world A) w :
  default None (head (faults w)) = None →
  attempt ev op w = op (with_faults (tail (faults w)) (record_event ev w)).
Proof. intros Hg. unfold attempt. run. by rewrite Hg. Qed.

Lemma attempt_refused {A} (ev : event) (op : M world A) w (e : exn) (rest : list (option exn)) :
  faults w = Some e :: rest →
  attempt ev op w = (Raises e, with_faults rest (record_event ev w)).
Proof. intros Hr. unfold attempt. run. by rewrite Hr. Qed.

Lemma makedirs_quiet (path : string) w :
  faults w = [] →
  ∃ w1, os_makedirs path w = (Returns tt, w1) ∧ faults w1 = [] ∧ files w1 = files w.
Proof.
  intros Hq. unfold os_makedirs. rewrite attempt_granted by by rewrite Hq.
  rewrite Hq. by eexists.
Qed.

Lemma write_temp_quiet (preferences : json) (path : string) w :
  faults w = [] →
  ∃ w1, with_file (open_write path) (f_close path)
          (λ _, json_dump preferences path;; f_flush path;; os_fsync path) w
        = (Returns tt, w1)
        ∧ faults w1 = []
        ∧ files w1 = <[path := json_dumps preferences]> (<[path := EmptyString]> (files w)).
Proof.
  intros Hq. unfold with_file, closing, open_write, json_dump, f_flush, os_fsync, f_close.
  rewrite run_bind. rewrite attempt_granted by by rewrite Hq. rewrite Hq. run.
  by eexists.
Qed.

Lemma clear_target_quiet w :
  faults w = [] →
  ∃ w1, (if String.eqb os_name "nt"
         then present ← os_path_exists PREFERENCES_FILE;
              if (present : bool) then os_remove PREFERENCES_FILE else mret tt
         else mret tt) w = (Returns tt, w1)
        ∧ faults w1 = []
        ∧ (∀ path, path ≠ PREFERENCES_FILE → files w1 !! path = files w !! path)
        ∧ (String.eqb os_name "nt" = true → files w1 !! PREFERENCES_FILE = None).
Proof.
  intros Hq. destruct (String.eqb os_name "nt") eqn:Hnt.
  - unfold os_path_exists, os_remove. run.
    destruct (files w !! PREFERENCES_FILE) as [old|] eqn:Hold; run.
    + rewrite Hq. run. rewrite Hold. run. eexists. split; [reflexivity|]. cbn.
      split; [done|]. split.
      * intros path Hne. by rewrite lookup_delete_ne.
      * intros _. apply lookup_delete_eq.
    + by eexists.
  - run. eexists. by repeat split.
Qed.

Lemma rename_quiet (src : string) (text : string) w :
  faults w = [] →
  files w !! src = Some text →
  (String.eqb os_name "nt" = true → files w !! PREFERENCES_FILE = None) →
  ∃ w1, os_rename src PREFERENCES_FILE w = (Returns tt, w1)
        ∧ faults w1 = []
        ∧ files w1 !! PREFERENCES_FILE = Some text.
Proof.
  intros Hq Hsrc Hfree. unfold os_rename.
  rewrite attempt_granted by by rewrite Hq. run. rewrite Hsrc.
  destruct (String.eqb os_name "nt") eqn:Hnt; cbn.
  - rewrite (Hfree eq_refl). cbn. eexists. split; [reflexivity|]. cbn.
    split; [by rewrite Hq|]. apply lookup_insert_eq.
  - eexists. split; [reflexivity|]. cbn.
    split; [by rewrite Hq|]. apply lookup_insert_eq.
Qed.

(** With nothing refused, a save succeeds and the file holds the text. *)
Lemma save_succeeds (preferences : json) w :
  faults w = [] →
  ∃ w', _save_preferences preferences w = (Returns tt, w')
        ∧ faults w' = []
        ∧ files w' !! PREFERENCES_FILE = Some (json_dumps preferences).
Proof.
  intros Hq. pose proof temp_file_differs as Hne.
  unfold _save_preferences, write_and_replace.
  destruct (makedirs_quiet (os_path_dirname PREFERENCES_FILE) w Hq) as (w1 & Hmk & Hq1 & Hf1).
  destruct (write_temp_quiet preferences (PREFERENCES_FILE +:+ ".tmp") w1 Hq1)
    as (w2 & Hwr & Hq2 & Hf2).
  destruct (clear_target_quiet w2 Hq2) as (w3 & Hcl & Hq3 & Hf3 & Hfree).
  destruct (rename_quiet (PREFERENCES_FILE +:+ ".tmp") (json_dumps preferences) w3 Hq3)
    as (w4 & Hrn & Hq4 & Hf4); [|done|].
  { rewrite Hf3 by done. rewrite Hf2. apply lookup_insert_eq. }
  rewrite run_bind. unfold try_except at 1. rewrite Hmk. cbv beta iota zeta.
  unfold try_except. rewrite !run_bind, Hwr. cbv beta iota zeta.
  rewrite !run_bind, Hcl. cbv beta iota zeta. rewrite !run_bind, Hrn. cbv beta iota.
  run. eexists. split; [reflexivity|]. by cbn.
Qed.

(** *** Reading the file *)

Lemma granted_four w :
  granted 4 (faults w) = true →
  default None (head (faults w)) = None
  ∧ default None (head (tail (faults w))) = None
  ∧ default None (head (tail (tail (faults w)))) = None
  ∧ default None (head (tail (tail (tail (faults w))))) = None.
Proof.
  intros H4.
  apply granted_S in H4 as [H1 H3]. apply granted_S in H3 as [H2 H3].
  apply granted_S in H3 as [H3 H4]. apply granted_S in H4 as [H4 _]. done.
Qed.

(** The [try] body on a file that is there and can be read. *)
Lemma read_preferences_granted w (text : string) :
  granted 4 (faults w) = true →
  files w !! PREFERENCES_FILE = Some text →
  read_preferences w =
  (if str_truthy (py_strip text) then json_loads (py_strip text)
   else Returns default_preferences, after_read w).
Proof.
  intros (H1 & H2 & H3 & H4)%granted_four Hfile.
  unfold read_preferences, os_makedirs, os_path_exists, with_file, closing, open_read,
    f_read, f_close.
  rewrite run_bind. rewrite attempt_granted by exact H1. run. rewrite Hfile. run.
  rewrite H2. run. rewrite Hfile. run. rewrite H3. run.
  destruct (str_truthy (py_strip text)); run.
  - destruct (json_loads (py_strip text)) as [v|e]; run; rewrite H4; run; same_world.
  - rewrite H4. run. same_world.
Qed.

Lemma load_parsed w (text : string) (v : json) :
  granted 4 (faults w) = true →
  files w !! PREFERENCES_FILE = Some text →
  parses_to text v →
  _load_preferences w = (Returns v, after_read w).
Proof.
  intros H4 Hfile [Htruthy Hloads]. unfold _load_preferences.
  rewrite run_try_except, (read_preferences_granted _ _ H4 Hfile), Htruthy, Hloads. done.
Qed.

Lemma load_blank w (text : string) :
  granted 4 (faults w) = true →
  files w !! PREFERENCES_FILE = Some text →
  str_truthy (py_strip text) = false →
  _load_preferences w = (Returns default_preferences, after_read w).
Proof.
  intros H4 Hfile Hblank. unfold _load_preferences.
  rewrite run_try_except, (read_preferences_granted _ _ H4 Hfile), Hblank. done.
Qed.

Lemma load_unparseable w (text : string) (e : exn) :
  granted 4 (faults w) = true →
  files w !! PREFERENCES_FILE = Some text →
  str_truthy (py_strip text) = true →
  json_loads (py_strip text) = Raises e →
  _load_preferences w =
  (if is_JSONDecodeError (exn_cls e) || is_OSError (exn_cls e)
   then on_unreadable_preferences e else on_unexpected_load_error e) (after_read w).
Proof.
  intros H4 Hfile Htruthy Hloads. unfold _load_preferences.
  rewrite run_try_except, (read_preferences_granted _ _ H4 Hfile), Htruthy, Hloads. done.
Qed.





(** C10. When the file holds a JSON object without the key
    [preferred_location_id], and reading it is not refused,
    [get_preferred_location_id] returns null; it does not raise, the files
    are as they were, and nothing is written: the journal shows the four
    operations of the read and the line printed. *)
Theorem missing_key_reads_as_null w (text : string) (d : dict) :
  files w !! PREFERENCES_FILE = Some text →
  parses_to text (JObj d) →
  dict_lookup "preferred_location_id" d = None →
  granted 4 (faults w) = true →
  ∃ w', get_preferred_location_id w = (Returns JNull, w')
        ∧ files w' = files w
        ∧ journal w' = journal w ++ [Makedirs (os_path_dirname PREFERENCES_FILE);
                                     OpenRead PREFERENCES_FILE; Read PREFERENCES_FILE;
                                     Close PREFERENCES_FILE;
                                     Print "Retrieved preferred location ID: None"].
Proof.
  intros Hfile Hparse Hkey H4. unfold get_preferred_location_id.
  rewrite run_bind, (load_parsed _ _ _ H4 Hfile Hparse).
  unfold py_get, dict_get. rewrite Hkey. run.
  eexists. split; [reflexivity|]. split; [done|]. cbn. by rewrite <- app_assoc.
Qed.

(** *** Saving *)

(** C9 fails where the directory cannot be made: the [except] clause reads
    [temp_file] before line 153 has assigned it, so what reaches the caller
    is an [UnboundLocalError], not the failure of [os.makedirs]; no removal
    of a temporary file is attempted. *)
Theorem makedirs_failure_is_not_reraised
    (preferences : json) (d : gset string) (f : gmap string string)
    (e : exn) (script : list (option exn)) (j : list event) :
  _save_preferences preferences (World d f (Some e :: script) j) =
  (Raises (unbound_temp_file e),
   World d f script
     (j ++ [Makedirs (os_path_dirname PREFERENCES_FILE);
            Print ("Error: Could not save preferences to " +:+ PREFERENCES_FILE
                   +:+ ": " +:+ py_str_exn e)])).
Proof.
  unfold _save_preferences, os_makedirs, on_save_failure. run. same_world.
Qed.

(** Once [temp_file] is assigned, the [except] clause raises again the very
    failure it caught. *)
Lemma on_save_failure_reraises (path : string) (e : exn) w :
  ∃ w', on_save_failure (Some path) e w = (Raises e, w').
Proof.
  unfold on_save_failure, os_path_exists, os_remove. run.
  repeat (case_step; run); by eexists.
Qed.

Lemma later_save_failures_are_reraised (preferences : json) w w1 (e : exn) w2 :
  os_makedirs (os_path_dirname PREFERENCES_FILE) w = (Returns tt, w1) →
  write_and_replace preferences (PREFERENCES_FILE +:+ ".tmp") w1 = (Raises e, w2) →
  ∃ w', _save_preferences preferences w = (Raises e, w').
Proof.
  intros Hmk Hwr. unfold _save_preferences.
  rewrite run_bind, run_try_except, Hmk. cbv beta iota zeta.
  rewrite run_try_except, Hwr. apply on_save_failure_reraises.
Qed.

(** *** Loading and setting when nothing is refused *)

Lemma load_quiet w :
  faults w = [] →
  ∃ w', _load_preferences w = (Returns (stored_preferences w), w') ∧ faults w' = [].
Proof.
  intros Hq. unfold stored_preferences.
  destruct (files w !! PREFERENCES_FILE) as [text|] eqn:Hfile.
  - assert (granted 4 (faults w) = true) as H4 by (rewrite Hq; apply granted_nil).
    assert (faults (after_read w) = []) as Hq' by (cbn; by rewrite Hq).
    destruct (str_truthy (py_strip text)) eqn:Htruthy.
    + destruct (json_loads (py_strip text)) as [v|e] eqn:Hloads.
      * rewrite (load_parsed w text v) by done. eauto.
      * rewrite (load_unparseable w text e) by done.
        destruct (is_JSONDecodeError (exn_cls e) || is_OSError (exn_cls e)).
        -- unfold on_unreadable_preferences. rewrite run_bind. unfold print at 1. cbn [modify].
           rewrite run_bind, run_try_except.
           edestruct (save_succeeds default_preferences) as (w1 & -> & Hq1 & _);
             [|cbv beta iota zeta; eauto].
           by cbn.
        -- unfold on_unexpected_load_error. run. eauto.
    + rewrite (load_blank w text) by done. eauto.
  - unfold _load_preferences, read_preferences.
    destruct (makedirs_quiet (os_path_dirname PREFERENCES_FILE) w Hq) as (w1 & Hmk & Hq1 & Hf1).
    rewrite run_try_except, run_bind, Hmk. cbv beta iota zeta.
    unfold os_path_exists. rewrite run_bind. cbn [gets]. rewrite Hf1, Hfile.
    cbn [bool_decide is_Some decide_rel]. rewrite bool_decide_eq_false_2 by (by intros [? ?]).
    destruct (save_succeeds default_preferences w1 Hq1) as (w2 & Hsave & Hq2 & _).
    rewrite run_bind, Hsave. run. eauto.
Qed.

Lemma stored_after_write w (v : json) :
  files w !! PREFERENCES_FILE = Some (json_dumps v) → round_trips v →
  stored_preferences w = v.
Proof.
  intros Hfile [Htruthy Hloads]. unfold stored_preferences.
  by rewrite Hfile, Htruthy, Hloads.
Qed.

(** With nothing refused, on a file that amounts to a record, the setter
    succeeds and leaves the whole updated record in the file. *)
Lemma set_succeeds (location_id : string) (d0 : dict) w :
  faults w = [] →
  stored_preferences w = JObj d0 →
  round_trips (JObj (dict_set "preferred_location_id" (JStr location_id) d0)) →
  ∃ w', set_preferred_location_id location_id w = (Returns tt, w')
        ∧ faults w' = []
        ∧ files w' !! PREFERENCES_FILE
          = Some (json_dumps (JObj (dict_set "preferred_location_id" (JStr location_id) d0))).
Proof.
  intros Hq Hstored Hround.
  unfold set_preferred_location_id, write_location.
  rewrite !run_bind. unfold print at 1. cbn [modify].
  destruct (load_quiet
              (record_event (Print ("Setting preferred location ID to: " +:+ location_id)) w))
    as (w0 & Hload & Hq0); [by cbn|].
  rewrite run_bind, Hload. cbv beta iota zeta.
  change (stored_preferences (record_event _ w)) with (stored_preferences w).
  rewrite Hstored. cbn [py_setitem]. rewrite run_bind. cbn [mret M_ret].
  destruct (save_succeeds (JObj (dict_set "preferred_location_id" (JStr location_id) d0)) w0 Hq0)
    as (w1 & Hsave & Hq1 & Hfile1).
  rewrite Hsave. cbv beta iota zeta.
  unfold read_back. rewrite !run_bind.
  rewrite (load_parsed w1 _ _) by (done || rewrite Hq1; apply granted_nil).
  cbn [py_get mret M_ret]. unfold dict_get. rewrite dict_lookup_set_eq. cbn [from_option id py_ne_str].
  rewrite String.eqb_refl. cbn [negb]. run.
  eexists. split; [reflexivity|]. cbn. by rewrite Hq1.
Qed.

Lemma get_after_write w (d : dict) :
  faults w = [] →
  files w !! PREFERENCES_FILE = Some (json_dumps (JObj d)) →
  round_trips (JObj d) →
  ∃ w', get_preferred_location_id w = (Returns (dict_get "preferred_location_id" d), w').
Proof.
  intros Hq Hfile Hround. unfold get_preferred_location_id.
  rewrite run_bind, (load_parsed w _ _) by (done || rewrite Hq; apply granted_nil).
  run. by eexists.
Qed.




(** C6. With nothing refused: a record saved is the record loaded, every key
    of it, whatever its keys are; and the setter, on a file that amounts to
    a record, leaves in the file that record with the one key assigned, all
    other keys as they were. *)
Theorem whole_record_round_trips (record : dict) w :
  faults w = [] →
  (round_trips (JObj record) →
   ∃ w1 w2, _save_preferences (JObj record) w = (Returns tt, w1)
            ∧ _load_preferences w1 = (Returns (JObj record), w2))
  ∧ (∀ location_id : string,
       let updated := dict_set "preferred_location_id" (JStr location_id) record in
       stored_preferences w = JObj record →
       round_trips (JObj updated) →
       ∃ w1, set_preferred_location_id location_id w = (Returns tt, w1)
             ∧ stored_preferences w1 = JObj updated
             ∧ dict_lookup "preferred_location_id" updated = Some (JStr location_id)
             ∧ ∀ other, other ≠ "preferred_location_id" →
                 dict_lookup other updated = dict_lookup other record).
Proof.
  intros Hq. split.
  - intros Hround.
    destruct (save_succeeds (JObj record) w Hq) as (w1 & Hsave & Hq1 & Hfile1).
    exists w1, (after_read w1). split; [done|].
    apply (load_parsed w1 (json_dumps (JObj record))); [|done..].
    rewrite Hq1. apply granted_nil.
  - intros location_id updated Hstored Hround.
    destruct (set_succeeds location_id record w Hq Hstored Hround) as (w1 & Hset & Hq1 & Hfile1).
    exists w1. split; [done|]. split; [by apply stored_after_write|]. split.
    + apply dict_lookup_set_eq.
    + intros other Hne. by apply dict_lookup_set_ne.
Qed.

(** *** The journal only grows *)

Lemma appends_ret {A} (a : A) : appends (mret a).
Proof. intros w. exists []. cbn. by rewrite app_nil_r. Qed.

Lemma appends_raise {A} (e : exn) : appends (raise (A := A) e).
Proof. intros w. exists []. cbn. by rewrite app_nil_r. Qed.

Lemma appends_gets {A} (f : world → A) : appends (gets f).
Proof. intros w. exists []. cbn. by rewrite app_nil_r. Qed.

Lemma appends_modify (f : world → world) :
  (∀ w, journal (f w) = journal w) → appends (modify f).
Proof. intros Hf w. exists []. cbn. by rewrite Hf, app_nil_r. Qed.

Lemma appends_print (line : string) : appends (print line).
Proof. intros w. by exists [Print line]. Qed.

Lemma appends_bind {A B} (m : M world A) (k : A → M world B) :
  appends m → (∀ a, appends (k a)) → appends (m ≫= k).
Proof.
  intros Hm Hk w. rewrite run_bind. specialize (Hm w).
  destruct (m w) as [[a|e] w1]; cbn in Hm; destruct Hm as [evs1 H1].
  - destruct (Hk a w1) as [evs2 H2]. exists (evs1 ++ evs2).
    by rewrite H2, H1, app_assoc.
  - by exists evs1.
Qed.

Lemma appends_try_except {A} (body : M world A) (handler : exn → M world A) :
  appends body → (∀ e, appends (handler e)) → appends (try_except body handler).
Proof.
  intros Hm Hk w. rewrite run_try_except. specialize (Hm w).
  destruct (body w) as [[a|e] w1]; cbn in Hm; destruct Hm as [evs1 H1].
  - by exists evs1.
  - destruct (Hk e w1) as [evs2 H2]. exists (evs1 ++ evs2).
    by rewrite H2, H1, app_assoc.
Qed.

Lemma appends_attempt {A} (ev : event) (op : M world A) :
  appends op → appends (attempt ev op).
Proof.
  intros Hop w. unfold attempt. run.
  destruct (default None (head (faults w))) as [e|].
  - by exists [ev].
  - destruct (Hop (with_faults (tail (faults w)) (record_event ev w))) as [evs Hevs].
    exists (ev :: evs). rewrite Hevs. cbn. by rewrite <- app_assoc.
Qed.

Lemma appends_closing {A} (close : M world unit) (body : M world A) :
  appends close → appends body → appends (closing close body).
Proof.
  intros Hc Hb w. unfold closing. specialize (Hb w).
  destruct (body w) as [[a|e] w1]; cbn in Hb; destruct Hb as [evs1 H1].
  - rewrite run_bind. specialize (Hc w1).
    destruct (close w1) as [[[]|e] w2]; cbn in Hc; destruct Hc as [evs2 H2];
      exists (evs1 ++ evs2); cbn; by rewrite H2, H1, app_assoc.
  - specialize (Hc w1).
    destruct (close w1) as [[[]|[cls text ctx]] w2]; cbn in Hc; destruct Hc as [evs2 H2];
      exists (evs1 ++ evs2); cbn; by rewrite H2, H1, app_assoc.
Qed.

Lemma appends_os_remove (path : string) : appends (os_remove path).
Proof.
  apply appends_attempt, appends_bind; [apply appends_gets|].
  intros [old|]; [by apply appends_modify | apply appends_raise].
Qed.

Lemma appends_on_save_failure (path : string) (e : exn) :
  appends (on_save_failure (Some path) e).
Proof.
  apply appends_bind; [apply appends_print|]. intros _.
  apply appends_bind; [apply appends_gets|]. intros leftover.
  apply appends_bind; [|intros _; apply appends_raise].
  destruct leftover; [|apply appends_ret].
  apply appends_try_except; [apply appends_os_remove | intros _; apply appends_ret].
Qed.

Lemma appends_write_and_replace (preferences : json) (path : string) :
  appends (write_and_replace preferences path).
Proof.
  unfold write_and_replace, with_file.
  apply appends_bind.
  { apply appends_bind; [by apply appends_attempt, appends_modify|]. intros _.
    apply appends_closing; [apply appends_attempt, appends_ret|].
    apply appends_bind; [by apply appends_attempt, appends_modify|]. intros _.
    apply appends_bind; [apply appends_attempt, appends_ret|]. intros _.
    apply appends_attempt, appends_ret. }
  intros _. apply appends_bind.
  { destruct (String.eqb os_name "nt"); [|apply appends_ret].
    apply appends_bind; [apply appends_gets|].
    intros []; [apply appends_os_remove | apply appends_ret]. }
  intros _. apply appends_bind; [|intros _; apply appends_print].
  apply appends_attempt.
  apply appends_bind; [apply appends_gets|]. intros content.
  apply appends_bind; [apply appends_gets|]. intros occupied.
  destruct content; [|apply appends_raise].
  destruct (_ && _); [apply appends_raise | by apply appends_modify].
Qed.

Lemma makedirs_journal (path : string) w (r : outcome unit) w1 :
  os_makedirs path w = (r, w1) → journal w1 = journal w ++ [Makedirs path].
Proof.
  unfold os_makedirs, attempt. run.
  destruct (default None (head (faults w))); by intros [= _ <-].
Qed.

(** Whatever becomes of it, a save starts by making the directory. *)
Lemma save_begins_with_makedirs (preferences : json) w :
  ∃ rest, journal (snd (_save_preferences preferences w))
          = journal w ++ Makedirs (os_path_dirname PREFERENCES_FILE) :: rest.
Proof.
  unfold _save_preferences. rewrite run_bind, run_try_except.
  destruct (os_makedirs _ w) as [[[]|e] w1] eqn:Hmk; apply makedirs_journal in Hmk.
  - cbv beta iota zeta.
    destruct (appends_try_except
                (write_and_replace preferences (PREFERENCES_FILE +:+ ".tmp"))
                (on_save_failure (Some (PREFERENCES_FILE +:+ ".tmp")))
                (appends_write_and_replace _ _)
                (appends_on_save_failure _) w1) as [evs Hevs].
    rewrite Hevs, Hmk. exists evs. by rewrite <- app_assoc.
  - unfold on_save_failure. run. rewrite Hmk. eexists. by rewrite <- app_assoc.
Qed.

(** C7, as the code has it. On a file that holds invalid JSON and can be
    read, [_load_preferences] prints the warning, returns the default
    record, and goes on to save the default record (with nothing refused the
    file then holds it; a failure of that save is swallowed). On a file that
    is empty or blank it returns the default record and does nothing else:
    no warning, no write. *)
Theorem invalid_json_is_recreated_blank_file_is_left (text : string) w :
  files w !! PREFERENCES_FILE = Some text →
  granted 4 (faults w) = true →
  (invalid_json text →
   ∃ e w' rest,
     json_loads (py_strip text) = Raises e
     ∧ _load_preferences w = (Returns default_preferences, w')
     ∧ journal w' = journal w
                    ++ [Makedirs (os_path_dirname PREFERENCES_FILE);
                        OpenRead PREFERENCES_FILE; Read PREFERENCES_FILE;
                        Close PREFERENCES_FILE;
                        Print (could_not_load_warning e);
                        Makedirs (os_path_dirname PREFERENCES_FILE)]
                    ++ rest
     ∧ (faults w = [] →
        files w' !! PREFERENCES_FILE = Some (json_dumps default_preferences)))
  ∧ (str_truthy (py_strip text) = false →
     ∃ w', _load_preferences w = (Returns default_preferences, w')
           ∧ files w' = files w
           ∧ journal w' = journal w
                          ++ [Makedirs (os_path_dirname PREFERENCES_FILE);
                              OpenRead PREFERENCES_FILE; Read PREFERENCES_FILE;
                              Close PREFERENCES_FILE]).
Proof.
  intros Hfile H4. split.
  - intros (Htruthy & e & Hloads & Hclass). exists e.
    rewrite (load_unparseable w text e) by done. rewrite Hclass. cbn [orb].
    unfold on_unreadable_preferences. rewrite run_bind. unfold print at 1. cbn [modify].
    rewrite run_bind, run_try_except.
    set (wp := record_event (Print (could_not_load_warning e)) (after_read w)).
    destruct (save_begins_with_makedirs default_preferences wp) as [rest Hrest].
    destruct (_save_preferences default_preferences wp) as [[[]|se] ws] eqn:Hsave;
      cbn in Hrest.
    + exists ws, rest. split; [done|]. split; [done|]. split.
      * rewrite Hrest. cbn. by rewrite <- !app_assoc.
      * intros Hq. destruct (save_succeeds default_preferences wp) as (w1 & Hs & _ & Hf);
          [cbn; by rewrite Hq|]. rewrite Hsave in Hs. by injection Hs as <-.
    + eexists _, (rest ++ [_]). split; [done|]. run. split; [reflexivity|]. split.
      * cbn. rewrite Hrest. cbn. by rewrite <- !app_assoc.
      * intros Hq. destruct (save_succeeds default_preferences wp) as (w1 & Hs & _ & Hf);
          [cbn; by rewrite Hq|]. rewrite Hsave in Hs. discriminate.
  - intros Hblank. exists (after_read w).
    by rewrite (load_blank w text).
Qed.

End WithRuntime.

(** *** The statements at work, on the scripted runtime *)

Import Scenarios.
#[local] Existing Instance posix.


(** A record with a theme, saved and loaded; and the setter on the file
    that holds it. *)
Lemma whole_record_round_trips_witness :
  let w := disk (Some (text_of themed_record)) [] in
  (∃ w1 w2, _save_preferences (JObj themed_record) w = (Returns tt, w1)
            ∧ _load_preferences w1 = (Returns (JObj themed_record), w2))
  ∧ (∃ w1, set_preferred_location_id "123" w = (Returns tt, w1)
           ∧ stored_preferences w1
             = JObj [("theme", JStr "dark"); ("preferred_location_id", JStr "123")]).
Proof.
  intros w.
  destruct (whole_record_round_trips themed_record w) as [Hsave Hset]; [reflexivity|].
  split.
  - apply Hsave. split; vm_compute; reflexivity.
  - destruct (Hset "123") as (w1 & Hrun & Hstored & _);
      [vm_compute; reflexivity | split; vm_compute; reflexivity |].
    exists w1. split; [exact Hrun | exact Hstored].
Defined.

(** A torn file is warned about and replaced by the default record; an
    empty file is left alone. *)
Lemma invalid_json_is_recreated_blank_file_is_left_witness :
  (let w := disk (Some torn_text) [] in
   ∃ w', _load_preferences w = (Returns default_preferences, w')
         ∧ files w' !! prefs_path = Some (text_of [("preferred_location_id", JNull)]))
  ∧ (let w := disk (Some EmptyString) [] in
     ∃ w', _load_preferences w = (Returns default_preferences, w')
           ∧ files w' = files w
           ∧ journal w' = [Makedirs "/home/shopper"; OpenRead prefs_path; Read prefs_path;
                           Close prefs_path]).
Proof.
  split.
  - intros w.
    destruct (invalid_json_is_recreated_blank_file_is_left torn_text w) as [Hinvalid _];
      [reflexivity..|].
    destruct Hinvalid as (e & w' & rest & _ & Hrun & _ & Hfile).
    { split; [reflexivity|]. eexists. split; reflexivity. }
    exists w'. split; [exact Hrun | exact (Hfile eq_refl)].
  - intros w.
    destruct (invalid_json_is_recreated_blank_file_is_left EmptyString w) as [_ Hblank];
      [reflexivity..|].
    exact (Hblank eq_refl).
Defined.

(** C7, as claimed, fails on an empty file: nothing is printed and nothing
    is written. *)
Lemma empty_file_is_not_warned_about :
  ¬ empty_or_invalid_is_warned_and_recreated (disk (Some EmptyString) []).
Proof.
  intros Hclaim.
  destruct (Hclaim EmptyString) as (w' & e & before & after & Hrun & Hjournal);
    [reflexivity | by left |].
  assert (Print (could_not_load_warning e) ∈ journal w') as Hin.
  { rewrite Hjournal. apply elem_of_app. right. by left. }
  assert (journal w' = [Makedirs "/home/shopper"; OpenRead prefs_path; Read prefs_path;
                        Close prefs_path]) as Hquiet.
  { change w' with (snd (Returns default_preferences, w')). by rewrite <- Hrun. }
  rewrite Hquiet in Hin.
  repeat (apply elem_of_cons in Hin as [Hin|Hin]; [discriminate|]).
  by apply elem_of_nil in Hin.
Qed.

(** A record that has a theme and no preferred location. *)
Lemma missing_key_reads_as_null_witness :
  let w := disk (Some (text_of themed_only)) [] in
  ∃ w', get_preferred_location_id w = (Returns JNull, w')
        ∧ files w' = files w
        ∧ journal w' = [Makedirs "/home/shopper"; OpenRead prefs_path; Read prefs_path;
                        Close prefs_path; Print "Retrieved preferred location ID: None"].
Proof.
  intros w.
  exact (missing_key_reads_as_null w (text_of themed_only) themed_only
           eq_refl (conj eq_refl eq_refl) eq_refl eq_refl).
Defined.

(** The home directory cannot be made: the caller of the save sees an
    [UnboundLocalError]. *)
Example save_with_home_read_only :
  fst (_save_preferences (JObj themed_only) (disk None [Some home_read_only]))
  = Raises (mk_exn UnboundLocalError
              "cannot access local variable 'temp_file' where it is not associated with a value"
              (Some home_read_only)).
Proof. reflexivity. Qed.

End PreferencesFacts.

(** * More on the session cache *)
Module SessionMore.
Import Session StringFacts MonadFacts.

Ltac run :=
  repeat (progress (unfold mbind, M_bind, mret, M_ret, collaborate, modify, gets,
                    raise, raise_from_handler, lift_outcome, try_except; cbn)).

Section WithCollaborator.
Context {L : Type} `{!Collaborator L}.
Implicit Types w : world L.

(** *** The app-credentials client *)

Lemma app_client_returned_is_cached w (h : handle) w1 :
  get_client_credentials_client w = (Returns h, w1) →
  _client_credentials_client w1 = Some h.
Proof.
  unfold get_client_credentials_client. rewrite run_bind. cbn [gets].
  destruct (_client_credentials_client w) as [h0|] eqn:Hcached.
  - by intros [= <- <-].
  - rewrite run_try_except, run_bind, SessionFacts.load_and_validate_env_spec.
    destruct (missing_from _ _); [|discriminate]. run.
    repeat (case_step; run); intros; simplify_eq; done.
Qed.

(** The app client is built once: after a call that returned a handle, the
    next call returns the same handle and asks nothing of its surroundings,
    not even whether the handle is still authorized. *)
Theorem app_client_is_built_once w (h : handle) w1 :
  get_client_credentials_client w = (Returns h, w1) →
  get_client_credentials_client w1 = (Returns h, w1).
Proof.
  intros Hcached%app_client_returned_is_cached.
  unfold get_client_credentials_client. rewrite run_bind. cbn [gets].
  by rewrite Hcached.
Qed.


(** A handle whose authorization failed stays in the cache (line 43 assigns
    it before line 44 authorizes it): the call that built it raises, and the
    next call returns it as it is. *)
Theorem unauthorized_app_client_is_cached w (h : handle) (l1 l2 : L) (e : exn) :
  _client_credentials_client w = None →
  missing_from (environ w) app_vars = [] →
  KrogerAPI (lib w) = (Returns h, l1) →
  client_credentials h l1 = (Raises e, l2) →
  ∃ w1, get_client_credentials_client w = (Raises (initialization_failed e), w1)
        ∧ _client_credentials_client w1 = Some h
        ∧ get_client_credentials_client w1 = (Returns h, w1).
Proof.
  intros Hcached Henv Hnew Hauth.
  unfold get_client_credentials_client at 1. rewrite run_bind. cbn [gets]. rewrite Hcached.
  rewrite run_try_except, run_bind, SessionFacts.load_and_validate_env_spec.
  unfold app_vars in Henv. rewrite Henv. run. rewrite Hnew. run. rewrite Hauth. run.
  eexists. split; [reflexivity|]. split; [done|].
  unfold get_client_credentials_client. by run.
Qed.

(** After an invalidation the app client is built anew: the next call
    starts by reading the configuration instead of returning the handle that
    was cached. *)
Theorem invalidated_app_client_is_rebuilt w :
  ∃ evs,
    calls (snd (get_client_credentials_client
                  (snd (invalidate_client_credentials_client w))))
    = calls w ++ map CallGetenv app_vars ++ evs.
Proof.
  unfold get_client_credentials_client, invalidate_client_credentials_client.
  rewrite run_bind. cbn [gets modify snd _client_credentials_client
                         with_client_credentials_client].
  rewrite run_try_except, run_bind, SessionFacts.load_and_validate_env_spec.
  destruct (missing_from _ _); run;
    repeat (case_step; run);
    (eexists; rewrite <- ?app_assoc; reflexivity) || (exists []; by rewrite ?app_nil_r).
Qed.

(** *** The user client *)

(** What the recovery asks of its surroundings: the configuration first,
    then at most one token load, one construction, two validity checks and
    one refresh. *)
Lemma recovery_calls w :
  ∃ evs, calls (snd (try_except recover_user_client on_recovery_failure w))
         = calls w ++ map CallGetenv user_oauth_vars ++ evs
         ∧ count_calls is_token_load evs ≤ 1
         ∧ count_calls is_construction evs ≤ 1
         ∧ count_calls is_validity_check evs ≤ 2
         ∧ count_calls is_refresh evs ≤ 1.
Proof.
  rewrite run_try_except. unfold recover_user_client.
  rewrite run_bind, SessionFacts.load_and_validate_env_spec.
  destruct (missing_from _ _).
  - unfold try_refresh, on_recovery_failure. run.
    repeat (case_step; run);
      (eexists; split; [rewrite <- ?app_assoc; reflexivity | cbn; lia]).
  - unfold on_recovery_failure. run. case_step; run;
      (exists []; split; [first [done | by rewrite app_nil_r] | cbn; lia]).
Qed.

(** One call of the accessor attempts at most one refresh, loads the token
    at most once, builds at most one handle and checks validity at most
    three times. *)
Theorem accessor_call_budget w :
  ∃ evs, calls (snd (get_authenticated_client w)) = calls w ++ evs
         ∧ count_calls is_refresh evs ≤ 1
         ∧ count_calls is_token_load evs ≤ 1
         ∧ count_calls is_construction evs ≤ 1
         ∧ count_calls is_validity_check evs ≤ 3.
Proof.
  unfold get_authenticated_client. rewrite run_bind.
  destruct (cached_client_valid w) as [[[h|]|e] w0] eqn:Hc.
  - revert Hc. unfold cached_client_valid. run.
    destruct (_authenticated_client w) as [h0|]; run; [|discriminate].
    destruct (test_current_token h0 (lib w)) as [[[]|e] l']; run; intros [= <- <-].
    exists [CallTestCurrentToken h0]. cbn. repeat split; lia.
  - rewrite run_bind. cbn [modify].
    destruct (recovery_calls (with_authenticated_client None w0))
      as (evs & -> & Hl & Hc' & Hv & Hr).
    revert Hc. unfold cached_client_valid. run.
    destruct (_authenticated_client w) as [h0|]; run.
    + destruct (test_current_token h0 (lib w)) as [[[]|e] l']; run; intros [= <-].
      exists (CallTestCurrentToken h0 :: map CallGetenv user_oauth_vars ++ evs).
      split; [cbn; by rewrite <- ?app_assoc|]. revert Hl Hc' Hv Hr. unfold count_calls. cbn. lia.
    + intros [= <-]. exists (map CallGetenv user_oauth_vars ++ evs).
      split; [done|]. revert Hl Hc' Hv Hr. unfold count_calls. cbn. lia.
  - revert Hc. unfold cached_client_valid. run.
    destruct (_authenticated_client w) as [h0|]; run; [|discriminate].
    destruct (test_current_token h0 (lib w)) as [[[]|e'] l']; run; intros [= <- <-].
    exists [CallTestCurrentToken h0]. cbn. repeat split; lia.
Qed.

(** After an invalidation the accessor recovers from scratch: whatever
    handle was cached, valid or not, it is not asked about, and the first
    thing the call does is read the configuration. *)
Theorem invalidated_client_is_not_reused w :
  ∃ evs,
    calls (snd (get_authenticated_client (snd (invalidate_authenticated_client w))))
    = calls w ++ map CallGetenv user_oauth_vars ++ evs.
Proof.
  unfold get_authenticated_client, cached_client_valid, invalidate_authenticated_client.
  rewrite !run_bind. cbn [gets modify snd _authenticated_client with_authenticated_client].
  cbn [mret M_ret]. rewrite run_bind. cbn [modify].
  destruct (recovery_calls
              (with_authenticated_client None (with_authenticated_client None w)))
    as (evs & Hevs & _).
  exists evs. by rewrite Hevs.
Qed.

(** No way of missing configuration reads like the signal. *)
Lemma missing_message_is_no_signal (env : gmap string string) :
  str_contains "Authentication required"
    (missing_message (missing_from env user_oauth_vars)) = false.
Proof.
  unfold missing_from, user_oauth_vars. rewrite !filter_cons, filter_nil.
  repeat case_decide; reflexivity.
Qed.

(** A missing configuration is never taken for the signal: the accessor
    raises the wrapped failure that names the missing variables, and neither
    loads a token nor builds a handle. *)
Theorem missing_configuration_is_wrapped w w0 :
  cached_client_valid w = (Returns None, w0) →
  missing_from (environ w) user_oauth_vars ≠ [] →
  get_authenticated_client w =
  (Raises (authentication_failed
             (mk_exn ValueError
                (missing_message (missing_from (environ w) user_oauth_vars)) None)),
   asked user_oauth_vars (with_authenticated_client None w0)).
Proof.
  intros Hc Hmissing.
  rewrite (SessionFacts.cached_client_valid_miss _ _ Hc).
  rewrite <- (SessionFacts.cached_client_valid_environ _ _ _ Hc) in *.
  rewrite run_try_except. unfold recover_user_client.
  rewrite run_bind, SessionFacts.load_and_validate_env_spec.
  cbn [environ with_authenticated_client].
  change ["KROGER_CLIENT_ID"; "KROGER_CLIENT_SECRET"; "KROGER_REDIRECT_URI"]
    with user_oauth_vars.
  destruct (missing_from (environ w0) user_oauth_vars) as [|var rest] eqn:Hm; [done|].
  unfold on_recovery_failure. cbn [py_str_exn].
  rewrite <- Hm, missing_message_is_no_signal. reflexivity.
Qed.

(** Without a stored token (no record, or an empty one) the accessor raises
    the signal; it builds no handle and the cache stays empty. *)
Theorem no_token_requires_authentication w w0 (stored : option dict) (l1 : L) :
  cached_client_valid w = (Returns None, w0) →
  missing_from (environ w) user_oauth_vars = [] →
  load_token TOKEN_FILE (lib w0) = (Returns stored, l1) →
  stored = None ∨ stored = Some [] →
  ∃ w', get_authenticated_client w = (Raises authentication_required, w')
        ∧ _authenticated_client w' = None
        ∧ calls w' = calls w0 ++ map CallGetenv user_oauth_vars ++ [CallLoadToken TOKEN_FILE].
Proof.
  intros Hc Henv Hload Hstored.
  rewrite (SessionFacts.cached_client_valid_miss _ _ Hc).
  rewrite <- (SessionFacts.cached_client_valid_environ _ _ _ Hc) in Henv.
  rewrite run_try_except. unfold recover_user_client.
  rewrite run_bind, SessionFacts.load_and_validate_env_spec.
  cbn [environ with_authenticated_client]. unfold user_oauth_vars in Henv. rewrite Henv.
  unfold TOKEN_FILE in *. run. rewrite Hload.
  destruct Hstored as [-> | ->]; run;
    (eexists; split; [reflexivity|]; cbn; split; [done|]; by rewrite <- !app_assoc).
Qed.

(** A stored token that the service accepts: the accessor returns a new
    handle bound to it and caches it, without attempting a refresh. *)
Theorem valid_stored_token_is_used
    w w0 (info : dict) (h : handle) (l1 l2 l3 : L) :
  cached_client_valid w = (Returns None, w0) →
  missing_from (environ w) user_oauth_vars = [] →
  load_token TOKEN_FILE (lib w0) = (Returns (Some info), l1) →
  info ≠ [] →
  KrogerAPI l1 = (Returns h, l2) →
  test_current_token h (set_token_file h TOKEN_FILE (set_token_info h info l2))
    = (Returns true, l3) →
  ∃ w', get_authenticated_client w = (Returns h, w')
        ∧ _authenticated_client w' = Some h
        ∧ lib w' = l3
        ∧ calls w' = calls w0 ++ map CallGetenv user_oauth_vars
                     ++ [CallLoadToken TOKEN_FILE; CallKrogerAPI; CallTestCurrentToken h].
Proof.
  intros Hc Henv Hload Hinfo Hnew Htest.
  rewrite (SessionFacts.cached_client_valid_miss _ _ Hc).
  rewrite <- (SessionFacts.cached_client_valid_environ _ _ _ Hc) in Henv.
  rewrite run_try_except. unfold recover_user_client.
  rewrite run_bind, SessionFacts.load_and_validate_env_spec.
  cbn [environ with_authenticated_client]. unfold user_oauth_vars in Henv. rewrite Henv.
  unfold TOKEN_FILE in *. destruct info as [|member info]; [done|].
  run. rewrite Hload. run. rewrite Hnew. run. rewrite Htest. run.
  eexists. split; [reflexivity|]. cbn. repeat split. by rewrite <- !app_assoc.
Qed.

(** An expired token that is refreshed: after the refresh the validity check
    is made again, and when it succeeds the handle is returned and cached. *)
Theorem refreshed_token_is_used
    w w0 (info : dict) (h : handle) (credential : json) (l1 l2 l3 l4 l5 : L) :
  cached_client_valid w = (Returns None, w0) →
  missing_from (environ w) user_oauth_vars = [] →
  load_token TOKEN_FILE (lib w0) = (Returns (Some info), l1) →
  info ≠ [] →
  KrogerAPI l1 = (Returns h, l2) →
  test_current_token h (set_token_file h TOKEN_FILE (set_token_info h info l2))
    = (Returns false, l3) →
  dict_lookup "refresh_token" info = Some credential →
  refresh_token h credential l3 = (Returns tt, l4) →
  test_current_token h l4 = (Returns true, l5) →
  ∃ w', get_authenticated_client w = (Returns h, w')
        ∧ _authenticated_client w' = Some h
        ∧ lib w' = l5
        ∧ calls w' = calls w0 ++ map CallGetenv user_oauth_vars
                     ++ [CallLoadToken TOKEN_FILE; CallKrogerAPI; CallTestCurrentToken h;
                         CallRefreshToken h credential; CallTestCurrentToken h].
Proof.
  intros Hc Henv Hload Hinfo Hnew Htest Hcred Hrefresh Hagain.
  rewrite (SessionFacts.cached_client_valid_miss _ _ Hc).
  rewrite <- (SessionFacts.cached_client_valid_environ _ _ _ Hc) in Henv.
  rewrite run_try_except. unfold recover_user_client.
  rewrite run_bind, SessionFacts.load_and_validate_env_spec.
  cbn [environ with_authenticated_client]. unfold user_oauth_vars in Henv. rewrite Henv.
  unfold TOKEN_FILE in *. destruct info as [|member info]; [done|].
  run. rewrite Hload. run. rewrite Hnew. run. rewrite Htest. run.
  unfold try_refresh. rewrite Hcred. run. rewrite Hrefresh. run. rewrite Hagain. run.
  eexists. split; [reflexivity|]. cbn. repeat split. by rewrite <- !app_assoc.
Qed.

(** An invalid token without a refresh credential: the accessor raises the
    signal without attempting a refresh, and the handle that failed the
    check is left in the cache (only a refresh that raises clears it). *)
Theorem invalid_token_without_credential
    w w0 (info : dict) (h : handle) (l1 l2 l3 : L) :
  cached_client_valid w = (Returns None, w0) →
  missing_from (environ w) user_oauth_vars = [] →
  load_token TOKEN_FILE (lib w0) = (Returns (Some info), l1) →
  info ≠ [] →
  KrogerAPI l1 = (Returns h, l2) →
  test_current_token h (set_token_file h TOKEN_FILE (set_token_info h info l2))
    = (Returns false, l3) →
  dict_lookup "refresh_token" info = None →
  ∃ w', get_authenticated_client w = (Raises authentication_required, w')
        ∧ _authenticated_client w' = Some h
        ∧ calls w' = calls w0 ++ map CallGetenv user_oauth_vars
                     ++ [CallLoadToken TOKEN_FILE; CallKrogerAPI; CallTestCurrentToken h].
Proof.
  intros Hc Henv Hload Hinfo Hnew Htest Hcred.
  rewrite (SessionFacts.cached_client_valid_miss _ _ Hc).
  rewrite <- (SessionFacts.cached_client_valid_environ _ _ _ Hc) in Henv.
  rewrite run_try_except. unfold recover_user_client.
  rewrite run_bind, SessionFacts.load_and_validate_env_spec.
  cbn [environ with_authenticated_client]. unfold user_oauth_vars in Henv. rewrite Henv.
  unfold TOKEN_FILE in *. destruct info as [|member info]; [done|].
  run. rewrite Hload. run. rewrite Hnew. run. rewrite Htest. run.
  unfold try_refresh. rewrite Hcred. run.
  eexists. split; [reflexivity|]. cbn. repeat split. by rewrite <- !app_assoc.
Qed.

(** A validity check of the cached handle that raises (line 56 is outside
    the [try]) reaches the caller as it is, unwrapped, and the handle stays
    in the cache. *)
Theorem failing_validity_check_propagates w (h : handle) (e : exn) (l' : L) :
  _authenticated_client w = Some h →
  test_current_token h (lib w) = (Raises e, l') →
  get_authenticated_client w
  = (Raises e, with_lib l' (record_call (CallTestCurrentToken h) w))
  ∧ _authenticated_client (with_lib l' (record_call (CallTestCurrentToken h) w)) = Some h.
Proof.
  intros Hcached Htest. split; [|done].
  unfold get_authenticated_client, cached_client_valid.
  run. rewrite Hcached. run. by rewrite Htest.
Qed.

(** The accessor hands out only handles it has just seen validated: when it
    returns [h], its last call was a validity check of [h], and that check
    returned true. *)
Theorem returned_handle_was_just_validated w (h : handle) w' :
  get_authenticated_client w = (Returns h, w') →
  ∃ (l : L) (before : list call),
    test_current_token h l = (Returns true, lib w')
    ∧ calls w' = before ++ [CallTestCurrentToken h].
Proof.
  unfold get_authenticated_client. rewrite run_bind.
  destruct (cached_client_valid w) as [[[h0|]|e] w0] eqn:Hc; [| |discriminate].
  - intros [= <- <-]. revert Hc. unfold cached_client_valid. run.
    destruct (_authenticated_client w) as [h1|]; run; [|discriminate].
    destruct (test_current_token h1 (lib w)) as [[[]|e] l'] eqn:Htest; run;
      intros; simplify_eq; cbn; eauto.
  - clear Hc. rewrite run_bind. cbn [modify]. rewrite run_try_except.
    unfold recover_user_client. rewrite run_bind, SessionFacts.load_and_validate_env_spec.
    destruct (missing_from _ _); unfold try_refresh, on_recovery_failure; run;
      repeat (case_step; run); intros; simplify_eq; cbn; eauto.
Qed.


End WithCollaborator.

(** *** The statements at work *)

Section OnScriptedApp.
#[local] Existing Instance Scenarios.scripted_app.

(** The service grants the app credentials: the handle built by the first
    call is what the second call returns. *)
Lemma app_client_is_built_once_witness :
  let w := Scenarios.fresh_session Scenarios.configured Scenarios.good_service in
  let w1 := snd (get_client_credentials_client w) in
  fst (get_client_credentials_client w) = Returns 1
  ∧ get_client_credentials_client w1 = (Returns 1, w1).
Proof.
  intros w w1. split; [vm_compute; reflexivity|].
  apply (app_client_is_built_once w 1 w1). vm_compute. reflexivity.
Defined.


(** The service rejects the app credentials: the first call raises, the
    second returns handle 1 all the same. *)
Lemma unauthorized_app_client_is_cached_witness :
  let w := Scenarios.fresh_session Scenarios.configured Scenarios.stale_session_service in
  ∃ w1, get_client_credentials_client w
        = (Raises (initialization_failed Scenarios.invalid_client), w1)
        ∧ _client_credentials_client w1 = Some 1
        ∧ get_client_credentials_client w1 = (Returns 1, w1).
Proof.
  intros w.
  apply (unauthorized_app_client_is_cached w 1
           (Scenarios.Service (Returns (Some Scenarios.expired_token)) false
              (Raises Scenarios.refresh_rejected) 1)
           (Scenarios.Service (Returns (Some Scenarios.expired_token)) false
              (Raises Scenarios.refresh_rejected) 1)
           Scenarios.invalid_client);
    vm_compute; reflexivity.
Defined.

End OnScriptedApp.

Section OnScriptedOffline.
#[local] Existing Instance Scenarios.scripted_offline.

Lemma failing_validity_check_propagates_witness :
  let w := Session.World Scenarios.configured Scenarios.good_service None (Some 7) [] in
  get_authenticated_client w
  = (Raises Scenarios.network_down,
     with_lib Scenarios.good_service (record_call (CallTestCurrentToken 7) w))
  ∧ _authenticated_client
      (with_lib Scenarios.good_service (record_call (CallTestCurrentToken 7) w)) = Some 7.
Proof.
  intros w.
  apply (failing_validity_check_propagates w 7 Scenarios.network_down Scenarios.good_service);
    reflexivity.
Defined.

End OnScriptedOffline.

Section OnScripted.
#[local] Existing Instance Scenarios.scripted.

Lemma missing_configuration_is_wrapped_witness :
  let w := Scenarios.fresh_session Scenarios.half_configured Scenarios.good_service in
  fst (get_authenticated_client w)
  = Raises (authentication_failed
              (mk_exn ValueError
                 "Missing required environment variables: KROGER_CLIENT_SECRET, KROGER_REDIRECT_URI"
                 None)).
Proof.
  intros w.
  rewrite (missing_configuration_is_wrapped w w); [|vm_compute; reflexivity|by vm_compute].
  vm_compute. reflexivity.
Defined.

Lemma no_token_requires_authentication_witness :
  let w := Scenarios.fresh_session Scenarios.configured Scenarios.signed_out_service in
  ∃ w', get_authenticated_client w = (Raises authentication_required, w')
        ∧ _authenticated_client w' = None
        ∧ calls w' = calls w ++ map CallGetenv user_oauth_vars ++ [CallLoadToken TOKEN_FILE].
Proof.
  intros w.
  apply (no_token_requires_authentication w w None Scenarios.signed_out_service);
    [vm_compute; reflexivity..|by left].
Defined.

Lemma valid_stored_token_is_used_witness :
  let w := Scenarios.fresh_session Scenarios.configured Scenarios.good_service in
  ∃ w', get_authenticated_client w = (Returns 1, w')
        ∧ _authenticated_client w' = Some 1
        ∧ lib w' = Scenarios.Service (Returns (Some Scenarios.expired_token)) true (Returns tt) 1
        ∧ calls w' = calls w ++ map CallGetenv user_oauth_vars
                     ++ [CallLoadToken TOKEN_FILE; CallKrogerAPI; CallTestCurrentToken 1].
Proof.
  intros w.
  apply (valid_stored_token_is_used w w Scenarios.expired_token 1 Scenarios.good_service
           (Scenarios.Service (Returns (Some Scenarios.expired_token)) true (Returns tt) 1));
    try (vm_compute; reflexivity).
  discriminate.
Defined.

Lemma refreshed_token_is_used_witness :
  let w := Scenarios.fresh_session Scenarios.configured Scenarios.refreshing_service in
  ∃ w', get_authenticated_client w = (Returns 1, w')
        ∧ _authenticated_client w' = Some 1
        ∧ lib w' = Scenarios.Service (Returns (Some Scenarios.expired_token)) true (Returns tt) 1
        ∧ calls w' = calls w ++ map CallGetenv user_oauth_vars
                     ++ [CallLoadToken TOKEN_FILE; CallKrogerAPI; CallTestCurrentToken 1;
                         CallRefreshToken 1 (JStr "old-refresh"); CallTestCurrentToken 1].
Proof.
  intros w.
  apply (refreshed_token_is_used w w Scenarios.expired_token 1 (JStr "old-refresh")
           Scenarios.refreshing_service
           (Scenarios.Service (Returns (Some Scenarios.expired_token)) false (Returns tt) 1)
           (Scenarios.Service (Returns (Some Scenarios.expired_token)) false (Returns tt) 1)
           (Scenarios.Service (Returns (Some Scenarios.expired_token)) true (Returns tt) 1));
    try (vm_compute; reflexivity).
  discriminate.
Defined.

Lemma invalid_token_without_credential_witness :
  let w := Scenarios.fresh_session Scenarios.configured Scenarios.bare_token_service in
  ∃ w', get_authenticated_client w = (Raises authentication_required, w')
        ∧ _authenticated_client w' = Some 1
        ∧ calls w' = calls w ++ map CallGetenv user_oauth_vars
                     ++ [CallLoadToken TOKEN_FILE; CallKrogerAPI; CallTestCurrentToken 1].
Proof.
  intros w.
  apply (invalid_token_without_credential w w Scenarios.bare_token 1
           Scenarios.bare_token_service
           (Scenarios.Service (Returns (Some Scenarios.bare_token)) false (Returns tt) 1)
           (Scenarios.Service (Returns (Some Scenarios.bare_token)) false (Returns tt) 1));
    try (vm_compute; reflexivity).
  discriminate.
Defined.

Lemma returned_handle_was_just_validated_witness :
  let w := Scenarios.fresh_session Scenarios.configured Scenarios.refreshing_service in
  ∃ (l : Scenarios.service) (before : list call),
    test_current_token 1 l = (Returns true, lib (snd (get_authenticated_client w)))
    ∧ calls (snd (get_authenticated_client w)) = before ++ [CallTestCurrentToken 1].
Proof.
  intros w.
  apply (returned_handle_was_just_validated w 1 (snd (get_authenticated_client w))).
  vm_compute. reflexivity.
Defined.

End OnScripted.
End SessionMore.

(** * More on the preference store *)
Module PreferencesMore.
Import Preferences StringFacts MonadFacts PreferencesFacts.

Ltac run :=
  repeat (progress (unfold mbind, M_bind, mret, M_ret, modify, gets, raise, lift_outcome,
                    try_except, attempt, next_fault, print; cbn)).

Section WithRuntime.
Context `{!Runtime}.
Implicit Types w : world.

(** *** What a save does to the files, whatever is refused *)

Lemma temp_path_differs : temp_path ≠ PREFERENCES_FILE.
Proof. apply temp_file_differs. Qed.

Lemma makedirs_keeps_files (path : string) w (r : outcome unit) w1 :
  os_makedirs path w = (r, w1) → files w1 = files w.
Proof.
  unfold os_makedirs. run. destruct (default None (head (faults w))); by intros [= _ <-].
Qed.

(** Writing the temporary file leaves every other path alone, and when it
    succeeds the temporary file holds the text. *)
Lemma write_temp_outcome (preferences : json) w (r : outcome unit) w1 :
  with_file (open_write temp_path) (f_close temp_path)
    (λ _, json_dump preferences temp_path;; f_flush temp_path;; os_fsync temp_path) w
  = (r, w1) →
  (∀ path, path ≠ temp_path → files w1 !! path = files w !! path)
  ∧ (r = Returns tt → files w1 !! temp_path = Some (json_dumps preferences)).
Proof.
  unfold with_file, closing, open_write, json_dump, f_flush, os_fsync, f_close. run.
  repeat (case_step; run); intros [= <- <-]; cbn;
    (split; [intros path Hne; by rewrite ?lookup_insert_ne | intros; simplify_eq]);
    try apply lookup_insert_eq.
Qed.

Lemma on_save_failure_outcome (e : exn) w (r : outcome unit) w1 :
  on_save_failure (Some temp_path) e w = (r, w1) →
  r = Raises e ∧ ∀ path, path ≠ temp_path → files w1 !! path = files w !! path.
Proof.
  unfold on_save_failure, os_path_exists, os_remove. run.
  repeat (case_step; run); intros [= <- <-]; cbn;
    (split; [done | intros path Hne; by rewrite ?lookup_delete_ne]).
Qed.

Lemma clear_target_outcome w (r : outcome unit) w1 :
  (if String.eqb os_name "nt"
   then present ← os_path_exists PREFERENCES_FILE;
        if (present : bool) then os_remove PREFERENCES_FILE else mret tt
   else mret tt) w = (r, w1) →
  (∀ path, path ≠ PREFERENCES_FILE → files w1 !! path = files w !! path)
  ∧ (String.eqb os_name "nt" = false → files w1 = files w).
Proof.
  unfold os_path_exists, os_remove.
  destruct (String.eqb os_name "nt"); run.
  - repeat (case_step; run); intros [= <- <-]; cbn;
      (split; [intros path Hne; by rewrite ?lookup_delete_ne | done]).
  - by intros [= <- <-].
Qed.

Lemma rename_outcome (text : string) w (r : outcome unit) w1 :
  os_rename temp_path PREFERENCES_FILE w = (r, w1) →
  files w !! temp_path = Some text →
  match r with
  | Returns _ => files w1 = <[PREFERENCES_FILE := text]> (delete temp_path (files w))
  | Raises _ => files w1 = files w
  end.
Proof.
  unfold temp_path, os_rename. run. intros Hrun Htemp. revert Hrun.
  destruct (default None (head (faults w))); run; [by intros [= <- <-]|].
  rewrite Htemp.
  repeat (case_step; run); by intros [= <- <-].
Qed.

Lemma write_and_replace_outcome (preferences : json) w (r : outcome unit) w1 :
  write_and_replace preferences temp_path w = (r, w1) →
  (∀ path, path ≠ PREFERENCES_FILE → path ≠ temp_path →
           files w1 !! path = files w !! path)
  ∧ (r = Returns tt →
     files w1 !! PREFERENCES_FILE = Some (json_dumps preferences)
     ∧ files w1 !! temp_path = None)
  ∧ (String.eqb os_name "nt" = false → ∀ e, r = Raises e →
     files w1 !! PREFERENCES_FILE = files w !! PREFERENCES_FILE).
Proof.
  pose proof temp_path_differs as Hne.
  unfold write_and_replace. rewrite run_bind.
  destruct (with_file _ _ _ w) as [[[]|e1] w2] eqn:Hwrite;
    apply write_temp_outcome in Hwrite as [Hkeep Htemp].
  2: { intros [= <- <-]. split; [by auto|]. split; [done|]. intros _ e _. by apply Hkeep. }
  rewrite run_bind.
  match goal with |- match ?clear w2 with _ => _ end = _ → _ =>
    destruct (clear w2) as [[[]|e2] w3] eqn:Hclear end;
    apply clear_target_outcome in Hclear as [Hkeep3 Hposix].
  2: { intros [= <- <-]. split; [intros; rewrite Hkeep3 by done; by apply Hkeep|].
       split; [done|]. intros Hp e _. rewrite (Hposix Hp). by apply Hkeep. }
  rewrite run_bind.
  destruct (os_rename temp_path PREFERENCES_FILE w3) as [[[]|e3] w4] eqn:Hrename;
    apply (rename_outcome (json_dumps preferences)) in Hrename;
    [| rewrite Hkeep3 by done; by apply Htemp | | rewrite Hkeep3 by done; by apply Htemp].
  - run. intros [= <- <-]. cbn. rewrite Hrename. split; [|split].
    + intros path H1 H2. rewrite lookup_insert_ne, lookup_delete_ne by done.
      rewrite Hkeep3 by done. by apply Hkeep.
    + intros _. split; [apply lookup_insert_eq|].
      rewrite lookup_insert_ne by done. apply lookup_delete_eq.
    + by intros _ e.
  - intros [= <- <-]. rewrite Hrename. split; [|split].
    + intros path H1 H2. rewrite Hkeep3 by done. by apply Hkeep.
    + done.
    + intros Hp e _. rewrite (Hposix Hp). by apply Hkeep.
Qed.

(** For every pattern of refusals: a save touches no path but the
    preferences file and its temporary file; a save that returns has put
    the text in the preferences file and left no temporary file; and where
    [os.rename] replaces its target (everywhere but on Windows) a save that
    raises has left the preferences file exactly as it was. The file is
    never seen half written. *)
Theorem save_replaces_or_leaves (preferences : json) w (r : outcome unit) w' :
  _save_preferences preferences w = (r, w') →
  (∀ path, path ≠ PREFERENCES_FILE → path ≠ temp_path →
           files w' !! path = files w !! path)
  ∧ (r = Returns tt →
     files w' !! PREFERENCES_FILE = Some (json_dumps preferences)
     ∧ files w' !! temp_path = None)
  ∧ (String.eqb os_name "nt" = false → ∀ e, r = Raises e →
     files w' !! PREFERENCES_FILE = files w !! PREFERENCES_FILE).
Proof.
  pose proof temp_path_differs as Hne.
  unfold _save_preferences. rewrite run_bind, run_try_except.
  destruct (os_makedirs _ w) as [[[]|e0] w1] eqn:Hmk;
    apply makedirs_keeps_files in Hmk.
  - cbv beta iota zeta. rewrite run_try_except.
    fold temp_path.
    destruct (write_and_replace preferences temp_path w1) as [[[]|e1] w2] eqn:Hwr;
      apply write_and_replace_outcome in Hwr as (Hframe & Hok & Hfail);
      rewrite Hmk in *.
    + intros [= <- <-]. split; [done|]. split; [done|]. by intros _ e.
    + intros Hh. apply on_save_failure_outcome in Hh as [-> Hkeep].
      split; [|split; [done|]].
      * intros path H1 H2. rewrite Hkeep by done. by apply Hframe.
      * intros Hp e _. rewrite Hkeep by done. by apply (Hfail Hp e1).
  - unfold on_save_failure. run. intros [= <- <-]. cbn. rewrite Hmk. by repeat split.
Qed.

(** After a single refusal anywhere between the opening of the temporary
    file and the rename, the save raises that very failure and leaves no
    temporary file behind, not even one left over from an earlier run. *)
Theorem single_failure_is_cleaned_up (preferences : json) (n : nat) (e : exn) w :
  faults w = replicate n None ++ [Some e] →
  1 ≤ n ≤ 6 →
  ∃ w', _save_preferences preferences w = (Raises e, w')
        ∧ files w' !! temp_path = None
        ∧ faults w' = [].
Proof.
  intros Hscript Hn. pose proof temp_path_differs as Hne. unfold temp_path in *.
  unfold _save_preferences, write_and_replace, on_save_failure, os_makedirs, with_file, closing,
    open_write, json_dump, f_flush, os_fsync, f_close, os_rename, os_remove, os_path_exists.
  destruct n as [|[|[|[|[|[|[|n]]]]]]]; try lia; cbn in Hscript;
    run; rewrite !Hscript; run;
    repeat (case_step; run);
    simplify_map_eq;
    try match goal with
        | Hb : bool_decide (is_Some _) = false |- _ =>
            apply bool_decide_eq_false, eq_None_not_Some in Hb
        end;
    (eexists; split; [reflexivity|]; cbn; split; [by simplify_map_eq | done]).
Qed.

(** On Windows the replacement is in two steps, and a rename that is
    refused after the old file was removed leaves no preferences file at
    all: the old text and the new are both gone. *)
Theorem windows_rename_failure_loses_the_file
    (preferences : json) (old : string) (e : exn) w :
  String.eqb os_name "nt" = true →
  files w !! PREFERENCES_FILE = Some old →
  faults w = replicate 7 None ++ [Some e] →
  ∃ w', _save_preferences preferences w = (Raises e, w')
        ∧ files w' !! PREFERENCES_FILE = None
        ∧ files w' !! temp_path = None.
Proof.
  intros Hnt Hold Hscript. pose proof temp_path_differs as Hne. unfold temp_path in *.
  unfold _save_preferences, write_and_replace, on_save_failure, os_makedirs, with_file, closing,
    open_write, json_dump, f_flush, os_fsync, f_close, os_rename, os_remove, os_path_exists.
  cbn in Hscript. run. rewrite !Hscript, !Hnt. run.
  simplify_map_eq. run. simplify_map_eq. run. simplify_map_eq.
  eexists. split; [reflexivity|]. cbn. split; by simplify_map_eq.
Qed.

(** *** Loading *)

(** The first read creates the file: when it is absent and nothing is
    refused, [_load_preferences] returns the default record and the file
    then holds it. *)
Theorem absent_file_is_created w :
  files w !! PREFERENCES_FILE = None →
  faults w = [] →
  ∃ w', _load_preferences w = (Returns default_preferences, w')
        ∧ files w' !! PREFERENCES_FILE = Some (json_dumps default_preferences).
Proof.
  intros Habsent Hq. unfold _load_preferences, read_preferences.
  destruct (makedirs_quiet (os_path_dirname PREFERENCES_FILE) w Hq) as (w1 & Hmk & Hq1 & Hf1).
  rewrite run_try_except, run_bind, Hmk. cbv beta iota zeta.
  unfold os_path_exists. rewrite run_bind. cbn [gets]. rewrite Hf1, Habsent.
  rewrite bool_decide_eq_false_2 by (by intros [? ?]).
  destruct (save_succeeds default_preferences w1 Hq1) as (w2 & Hsave & _ & Hfile).
  rewrite run_bind, Hsave. run. by exists w2.
Qed.

(** The getter returns what the file holds under the key (null when the
    key is absent) and leaves the files as they are. *)
Theorem get_returns_the_stored_value w (text : string) (d : dict) :
  files w !! PREFERENCES_FILE = Some text →
  parses_to text (JObj d) →
  granted 4 (faults w) = true →
  ∃ w', get_preferred_location_id w = (Returns (dict_get "preferred_location_id" d), w')
        ∧ files w' = files w.
Proof.
  intros Hfile Hparse H4. unfold get_preferred_location_id.
  rewrite run_bind, (load_parsed _ _ _ H4 Hfile Hparse). run. by eexists.
Qed.

(** A file that holds valid JSON which is not an object is no record: the
    getter raises [AttributeError] and the setter raises [TypeError] before
    it writes anything. Neither is recovered by the default record. *)
Theorem non_object_file_is_not_recovered w (text : string) (v : json) (location_id : string) :
  files w !! PREFERENCES_FILE = Some text →
  parses_to text v →
  (∀ d, v ≠ JObj d) →
  granted 4 (faults w) = true →
  (∃ w' message, get_preferred_location_id w
                 = (Raises (mk_exn AttributeError message None), w')
                 ∧ files w' = files w)
  ∧ (∃ w' message, set_preferred_location_id location_id w
                   = (Raises (mk_exn TypeError message None), w')
                   ∧ files w' = files w).
Proof.
  intros Hfile Hparse Hnot H4. split.
  - unfold get_preferred_location_id.
    rewrite run_bind, (load_parsed _ _ _ H4 Hfile Hparse).
    destruct v; try (by eexists _, _); by destruct (Hnot members).
  - unfold set_preferred_location_id, write_location.
    rewrite !run_bind. unfold print at 1. cbn [modify].
    rewrite run_bind, (load_parsed _ text v) by done.
    destruct v; try (by eexists _, _); by destruct (Hnot members).
Qed.

(** A read of an existing file that is refused once, at any of its four
    operations: the [try] body raises a failure of the class and text of the
    refusal, and has changed no file. *)
Lemma read_preferences_refused w (text : string) (n : nat) (e : exn) :
  files w !! PREFERENCES_FILE = Some text →
  faults w = replicate n None ++ [Some e] →
  n < 4 →
  ∃ e' w1, read_preferences w = (Raises e', w1)
           ∧ exn_cls e' = exn_cls e
           ∧ py_str_exn e' = py_str_exn e
           ∧ faults w1 = []
           ∧ files w1 = files w.
Proof.
  intros Hfile Hscript Hn.
  unfold read_preferences, os_makedirs, os_path_exists, with_file, closing, open_read,
    f_read, f_close.
  generalize (_save_preferences default_preferences). intros save.
  destruct e as [cls message ctx].
  destruct n as [|[|[|[|n]]]]; try lia; cbn in Hscript;
    run; rewrite !Hscript; run; rewrite ?Hfile; run; rewrite ?Hfile; run;
    repeat (case_step; run); by eexists _, _.
Qed.

(** A transient read error costs the stored preferences: when an existing
    file cannot be read because one operation is refused with an [OSError],
    [_load_preferences] returns the default record and, the save going
    through, the file then holds the default record in place of its text. *)
Theorem unreadable_file_is_overwritten w (text : string) (n : nat) (e : exn) :
  files w !! PREFERENCES_FILE = Some text →
  faults w = replicate n None ++ [Some e] →
  n < 4 →
  is_OSError (exn_cls e) = true →
  ∃ w', _load_preferences w = (Returns default_preferences, w')
        ∧ files w' !! PREFERENCES_FILE = Some (json_dumps default_preferences)
        ∧ Print (could_not_load_warning e) ∈ journal w'.
Proof.
  intros Hfile Hscript Hn Hclass.
  destruct (read_preferences_refused w text n e Hfile Hscript Hn)
    as (e' & w1 & Hread & Hcls & Htext & Hq1 & Hf1).
  unfold _load_preferences. rewrite run_try_except, Hread, Hcls, Hclass, orb_true_r.
  unfold on_unreadable_preferences. rewrite run_bind. unfold print at 1. cbn [modify].
  rewrite run_bind, run_try_except.
  destruct (save_succeeds default_preferences
              (record_event (Print (could_not_load_warning e')) w1))
    as (w2 & Hsave & _ & Hfile2); [by cbn|].
  rewrite Hsave. cbv beta iota zeta. run. exists w2. split; [done|]. split; [done|].
  destruct (save_begins_with_makedirs default_preferences
              (record_event (Print (could_not_load_warning e')) w1)) as [rest Hrest].
  rewrite Hsave in Hrest. cbn in Hrest. rewrite Hrest.
  unfold could_not_load_warning. rewrite Htext. set_solver.
Qed.

(** A read failure of any other kind (say a [UnicodeDecodeError]) is
    answered by the default record in memory only: no file is written. *)
Theorem undecodable_file_is_left_alone w (text : string) (n : nat) (e : exn) :
  files w !! PREFERENCES_FILE = Some text →
  faults w = replicate n None ++ [Some e] →
  n < 4 →
  is_JSONDecodeError (exn_cls e) || is_OSError (exn_cls e) = false →
  ∃ w', _load_preferences w = (Returns default_preferences, w')
        ∧ files w' = files w.
Proof.
  intros Hfile Hscript Hn Hclass.
  destruct (read_preferences_refused w text n e Hfile Hscript Hn)
    as (e' & w1 & Hread & Hcls & Htext & Hq1 & Hf1).
  unfold _load_preferences. rewrite run_try_except, Hread, Hcls, Hclass.
  unfold on_unexpected_load_error. run. by eexists.
Qed.

(** *** Setting *)

(** On a file that is absent, blank or does not parse, the setter starts
    from the default record: with nothing refused, the file then holds the
    preferred location and nothing else. *)
Theorem set_on_unusable_file (location_id : string) w :
  faults w = [] →
  (files w !! PREFERENCES_FILE = None
   ∨ ∃ text, files w !! PREFERENCES_FILE = Some text
             ∧ (str_truthy (py_strip text) = false
                ∨ ∃ e, json_loads (py_strip text) = Raises e)) →
  round_trips (JObj (only_location location_id)) →
  ∃ w', set_preferred_location_id location_id w = (Returns tt, w')
        ∧ files w' !! PREFERENCES_FILE = Some (json_dumps (JObj (only_location location_id))).
Proof.
  intros Hq Hunusable Hround.
  assert (stored_preferences w = default_preferences) as Hstored.
  { unfold stored_preferences.
    destruct Hunusable as [-> | (text & -> & [-> | [e He]])]; [done..|].
    destruct (str_truthy _); [|done]. by rewrite He. }
  destruct (set_succeeds location_id [("preferred_location_id", JNull)] w Hq Hstored)
    as (w' & Hset & _ & Hfile); [exact Hround|].
  exists w'. split; [done|]. exact Hfile.
Qed.

(** Setting twice: the second value stands, and the file is as if only the
    second call had been made. *)
Theorem set_twice_keeps_the_last (first second : string) (d : dict) w :
  faults w = [] →
  stored_preferences w = JObj d →
  round_trips (JObj (dict_set "preferred_location_id" (JStr first) d)) →
  round_trips (JObj (dict_set "preferred_location_id" (JStr second) d)) →
  ∃ w1 w2 w3,
    set_preferred_location_id first w = (Returns tt, w1)
    ∧ set_preferred_location_id second w1 = (Returns tt, w2)
    ∧ files w2 !! PREFERENCES_FILE
      = Some (json_dumps (JObj (dict_set "preferred_location_id" (JStr second) d)))
    ∧ get_preferred_location_id w2 = (Returns (JStr second), w3).
Proof.
  intros Hq Hstored Hfirst Hsecond.
  destruct (set_succeeds first d w Hq Hstored Hfirst) as (w1 & Hset1 & Hq1 & Hfile1).
  pose proof (stored_after_write w1 _ Hfile1 Hfirst) as Hstored1.
  destruct (set_succeeds second _ w1 Hq1 Hstored1) as (w2 & Hset2 & Hq2 & Hfile2);
    [by rewrite dict_set_set|].
  rewrite dict_set_set in Hfile2.
  destruct (get_after_write w2 _ Hq2 Hfile2 Hsecond) as (w3 & Hget).
  exists w1, w2, w3. repeat (split; [done|]).
  rewrite Hget. unfold dict_get. by rewrite dict_lookup_set_eq.
Qed.

(** *** No success after a refusal *)

Lemma Forall_take_add {A} (P : A → Prop) (k1 k2 : nat) (l : list A) :
  Forall P (take k1 l) → Forall P (take k2 (drop k1 l)) → Forall P (take (k1 + k2) l).
Proof.
  revert l. induction k1 as [|k1 IH]; intros l H1 H2; [done|].
  destruct l as [|x l]; [done|]. cbn in *.
  apply Forall_cons in H1 as [Hx H1]. apply Forall_cons. split; [done|]. by apply IH.
Qed.

Lemma surfaces_ret {A} (a : A) : surfaces_refusals (mret a).
Proof. intros w a' w' [= _ <-]. by exists 0. Qed.

Lemma surfaces_raise {A} (e : exn) : surfaces_refusals (raise (A := A) e).
Proof. by intros w a' w'. Qed.

Lemma surfaces_gets {A} (f : world → A) : surfaces_refusals (gets f).
Proof. intros w a' w' [= _ <-]. by exists 0. Qed.

Lemma surfaces_modify (f : world → world) :
  (∀ w, faults (f w) = faults w) → surfaces_refusals (modify f).
Proof. intros Hf w a' w' [= _ <-]. exists 0. by rewrite Hf. Qed.

Lemma surfaces_bind {A B} (m : M world A) (k : A → M world B) :
  surfaces_refusals m → (∀ a, surfaces_refusals (k a)) → surfaces_refusals (m ≫= k).
Proof.
  intros Hm Hk w b w'. rewrite run_bind.
  destruct (m w) as [[a|e] w1] eqn:Hrun; [|discriminate].
  intros Hrest. destruct (Hm _ _ _ Hrun) as (k1 & Hd1 & Hn1).
  destruct (Hk a _ _ _ Hrest) as (k2 & Hd2 & Hn2).
  exists (k1 + k2). rewrite Hd2, Hd1, drop_drop. split; [done|].
  apply Forall_take_add; [done|]. by rewrite <- Hd1.
Qed.

Lemma surfaces_attempt {A} (ev : event) (op : M world A) :
  surfaces_refusals op → surfaces_refusals (attempt ev op).
Proof.
  intros Hop w a w'. unfold attempt. run.
  destruct (faults w) as [|[e|] rest] eqn:Hscript; cbn; [|discriminate|].
  - intros Hrun. destruct (Hop _ _ _ Hrun) as (k & Hd & Hn). cbn in *.
    exists 0. rewrite Hd. by rewrite drop_nil.
  - intros Hrun. destruct (Hop _ _ _ Hrun) as (k & Hd & Hn). cbn in *.
    exists (S k). rewrite Hd. cbn. split; [done|]. by apply Forall_cons.
Qed.

Lemma surfaces_closing {A} (close : M world unit) (body : M world A) :
  surfaces_refusals close → surfaces_refusals body → surfaces_refusals (closing close body).
Proof.
  intros Hc Hb w a w'. unfold closing.
  destruct (body w) as [[a0|e] w1] eqn:Hrun.
  - intros Hrest.
    assert (surfaces_refusals (body ≫= λ a1, close;; mret a1)) as Hboth.
    { apply surfaces_bind; [done|]. intros a1.
      apply surfaces_bind; [done|]. intros _. apply surfaces_ret. }
    apply (Hboth w a w'). by rewrite run_bind, Hrun.
  - destruct (close w1) as [[[]|[cls text ctx]] w2]; discriminate.
Qed.

(** A [try] whose [except] clause always raises. *)
Lemma surfaces_try_reraising {A} (body : M world A) (handler : exn → M world A) :
  surfaces_refusals body →
  (∀ e w, ∃ e' w', handler e w = (Raises e', w')) →
  surfaces_refusals (try_except body handler).
Proof.
  intros Hb Hh w a w'. rewrite run_try_except.
  destruct (body w) as [[a0|e] w1] eqn:Hrun.
  - intros [= <- <-]. by eapply Hb.
  - destruct (Hh e w1) as (e' & w2 & ->). discriminate.
Qed.

Lemma surfaces_os_remove (path : string) : surfaces_refusals (os_remove path).
Proof.
  apply surfaces_attempt, surfaces_bind; [apply surfaces_gets|].
  intros [old|]; [by apply surfaces_modify | apply surfaces_raise].
Qed.

Lemma surfaces_write_and_replace (preferences : json) (path : string) :
  surfaces_refusals (write_and_replace preferences path).
Proof.
  unfold write_and_replace, with_file.
  apply surfaces_bind.
  { apply surfaces_bind; [by apply surfaces_attempt, surfaces_modify|]. intros _.
    apply surfaces_closing; [apply surfaces_attempt, surfaces_ret|].
    apply surfaces_bind; [by apply surfaces_attempt, surfaces_modify|]. intros _.
    apply surfaces_bind; [apply surfaces_attempt, surfaces_ret|]. intros _.
    apply surfaces_attempt, surfaces_ret. }
  intros _. apply surfaces_bind.
  { destruct (String.eqb os_name "nt"); [|apply surfaces_ret].
    apply surfaces_bind; [apply surfaces_gets|].
    intros []; [apply surfaces_os_remove | apply surfaces_ret]. }
  intros _. apply surfaces_bind; [|intros _; by apply surfaces_modify].
  apply surfaces_attempt.
  apply surfaces_bind; [apply surfaces_gets|]. intros content.
  apply surfaces_bind; [apply surfaces_gets|]. intros occupied.
  destruct content; [|apply surfaces_raise].
  destruct (_ && _); [apply surfaces_raise | by apply surfaces_modify].
Qed.

(** A save never reports success over a failure: when
    [_save_preferences] returns, none of the filesystem operations it
    attempted was refused. *)
Theorem save_success_means_nothing_was_refused (preferences : json) w w' :
  _save_preferences preferences w = (Returns tt, w') →
  ∃ k, faults w' = drop k (faults w)
       ∧ Forall (λ fault, fault = None) (take k (faults w)).
Proof.
  assert (surfaces_refusals (_save_preferences preferences)) as Hsave; [|by apply Hsave].
  unfold _save_preferences. apply surfaces_bind.
  - apply surfaces_try_reraising.
    + by apply surfaces_attempt, surfaces_modify.
    + intros e w0. unfold on_save_failure. run. by eexists _, _.
  - intros _. apply surfaces_try_reraising.
    + apply surfaces_write_and_replace.
    + intros e w0. destruct (on_save_failure_reraises (PREFERENCES_FILE +:+ ".tmp") e w0)
        as [w1 Hw1]. by eexists _, _.
Qed.

End WithRuntime.

(** *** The statements at work *)

Import Scenarios.

Section OnPosix.
#[local] Existing Instance posix.

(** The rename is refused: the save raises and the old text is still there. *)
Lemma save_replaces_or_leaves_witness :
  let w := disk (Some (text_of themed_record)) (refuse_after 6 home_read_only) in
  fst (_save_preferences (JObj themed_only) w) = Raises home_read_only
  ∧ files (snd (_save_preferences (JObj themed_only) w)) !! prefs_path
    = Some (text_of themed_record).
Proof.
  intros w.
  destruct (save_replaces_or_leaves (JObj themed_only) w
              (Raises home_read_only) (snd (_save_preferences (JObj themed_only) w)))
    as (_ & _ & Hleft); [vm_compute; reflexivity|].
  split; [vm_compute; reflexivity|].
  exact (Hleft eq_refl home_read_only eq_refl).
Defined.

(** The write is refused: the temporary file that was opened is removed. *)
Lemma single_failure_is_cleaned_up_witness :
  let w := disk (Some (text_of themed_record)) (refuse_after 2 home_read_only) in
  ∃ w', _save_preferences (JObj themed_only) w = (Raises home_read_only, w')
        ∧ files w' !! temp_prefs_path = None
        ∧ faults w' = [].
Proof.
  intros w.
  exact (single_failure_is_cleaned_up (JObj themed_only) 2 home_read_only w
           eq_refl ltac:(lia)).
Defined.

Lemma absent_file_is_created_witness :
  let w := disk None [] in
  ∃ w', _load_preferences w = (Returns default_preferences, w')
        ∧ files w' !! prefs_path = Some (text_of [("preferred_location_id", JNull)]).
Proof.
  intros w. exact (absent_file_is_created w eq_refl eq_refl).
Defined.

Lemma get_returns_the_stored_value_witness :
  let w := disk (Some (text_of themed_record)) [] in
  ∃ w', get_preferred_location_id w = (Returns (JStr "70100023"), w')
        ∧ files w' = files w.
Proof.
  intros w.
  exact (get_returns_the_stored_value w (text_of themed_record) themed_record
           eq_refl (conj eq_refl eq_refl) eq_refl).
Defined.

(** The [open] of the read is refused: the record with the theme is
    replaced by the default record. *)
Lemma unreadable_file_is_overwritten_witness :
  let w := disk (Some (text_of themed_record)) (refuse_after 1 home_read_only) in
  ∃ w', _load_preferences w = (Returns default_preferences, w')
        ∧ files w' !! prefs_path = Some (text_of [("preferred_location_id", JNull)])
        ∧ Print (could_not_load_warning home_read_only) ∈ journal w'.
Proof.
  intros w.
  exact (unreadable_file_is_overwritten w (text_of themed_record) 1 home_read_only
           eq_refl eq_refl ltac:(lia) eq_refl).
Defined.

Lemma undecodable_file_is_left_alone_witness :
  let w := disk (Some (text_of themed_record)) (refuse_after 2 bad_utf8) in
  ∃ w', _load_preferences w = (Returns default_preferences, w')
        ∧ files w' = files w.
Proof.
  intros w.
  exact (undecodable_file_is_left_alone w (text_of themed_record) 2 bad_utf8
           eq_refl eq_refl ltac:(lia) eq_refl).
Defined.

Lemma set_on_unusable_file_witness :
  let w := disk (Some torn_text) [] in
  ∃ w', set_preferred_location_id "123" w = (Returns tt, w')
        ∧ files w' !! prefs_path = Some (text_of [("preferred_location_id", JStr "123")]).
Proof.
  intros w.
  refine (set_on_unusable_file "123" w eq_refl _ (conj eq_refl eq_refl)).
  right. exists torn_text. split; [reflexivity|]. right. eexists. reflexivity.
Defined.

Lemma set_twice_keeps_the_last_witness :
  let w := disk (Some (text_of themed_record)) [] in
  ∃ w1 w2 w3,
    set_preferred_location_id "123" w = (Returns tt, w1)
    ∧ set_preferred_location_id "70100023" w1 = (Returns tt, w2)
    ∧ files w2 !! prefs_path = Some (text_of themed_record)
    ∧ get_preferred_location_id w2 = (Returns (JStr "70100023"), w3).
Proof.
  intros w.
  exact (set_twice_keeps_the_last "123" "70100023" themed_record w
           eq_refl eq_refl (conj eq_refl eq_refl) (conj eq_refl eq_refl)).
Defined.

(** Nine operations would be granted; the save uses seven of them. *)
Lemma save_success_means_nothing_was_refused_witness :
  let w := disk None (replicate 9 None) in
  ∃ k, faults (snd (_save_preferences (JObj themed_only) w)) = drop k (faults w)
       ∧ Forall (λ fault, fault = None) (take k (faults w)).
Proof.
  intros w.
  apply (save_success_means_nothing_was_refused (JObj themed_only) w).
  vm_compute. reflexivity.
Defined.

End OnPosix.

Section OnPosixWithArrays.
#[local] Existing Instance posix_with_arrays.

(** The file holds an empty array. *)
Lemma non_object_file_is_not_recovered_witness :
  let w := disk (Some "[]") [] in
  (∃ w' message, get_preferred_location_id w
                 = (Raises (mk_exn AttributeError message None), w')
                 ∧ files w' = files w)
  ∧ (∃ w' message, set_preferred_location_id "123" w
                   = (Raises (mk_exn TypeError message None), w')
                   ∧ files w' = files w).
Proof.
  intros w.
  refine (non_object_file_is_not_recovered w "[]" (JArr []) "123"
            eq_refl (conj eq_refl eq_refl) _ eq_refl).
  discriminate.
Defined.

End OnPosixWithArrays.

Section OnWindows.
#[local] Existing Instance windows.

Lemma windows_rename_failure_loses_the_file_witness :
  let w := disk (Some (text_of themed_record)) (refuse_after 7 home_read_only) in
  ∃ w', _save_preferences (JObj themed_only) w = (Raises home_read_only, w')
        ∧ files w' !! prefs_path = None
        ∧ files w' !! temp_prefs_path = None.
Proof.
  intros w.
  exact (windows_rename_failure_loses_the_file (JObj themed_only) (text_of themed_record)
           home_read_only w eq_refl eq_refl eq_refl).
Defined.

End OnWindows.
End PreferencesMore.
